(** * relay.py: the LTE / Iridium / MQTT telemetry relay

    A shallow embedding of the three transport adapters of [relay.py]
    ([LteInterface], [IridiumInterface], [MqttInterface]) and of the
    callback wiring done by [main], followed by the properties of the
    design specification that concern them.

    Conventions of the embedding.
    - A Python 2 [str] (a sequence of 8-bit characters) is a [string].
    - A reading of [time.time()] is an input of the handler that takes
      it, modelled as an integer number of clock ticks; only differences
      and comparisons of readings are used by the code.
    - The socket, the paho client, the tornado HTTP client and the logger
      are the environment: what a handler reads from them is an argument,
      every call it makes on them is an action emitted in program order.
    - A handler whose body runs between [acquire] and [release] of the
      object's lock is one atomic step. An exception raised inside such a
      body leaves the lock held, so that no later handler of the object
      gets past [acquire]: a run ends at the first exception, with the
      state as the handler left it. *)

From Stdlib Require Import ZArith Lia List Bool Ascii String.
From stdpp Require Import base option list gmap strings.
Import ListNotations.

Local Open Scope string_scope.
Local Open Scope list_scope.

(** ** Python 2 byte strings and the [hex] codec *)

Definition bytes := string.

(** [len(s)] *)
Definition len (s : bytes) : Z := Z.of_nat (String.length s).

(** [sys.getsizeof] of a [str] on 64-bit CPython 2.7: a 37 byte header
    (terminating NUL included) plus one byte per character. *)
Definition getsizeof (s : bytes) : Z := (37 + len s)%Z.

(** Value of one hexadecimal digit, as [binascii] reads it (both cases). *)
Definition hex_digit_val (c : ascii) : option N :=
  let n := N_of_ascii c in
  if ((48 <=? n) && (n <=? 57))%N then Some (n - 48)%N
  else if ((97 <=? n) && (n <=? 102))%N then Some (n - 87)%N
  else if ((65 <=? n) && (n <=? 70))%N then Some (n - 55)%N
  else None.

(** Lower-case hexadecimal digit of a value below 16. *)
Definition hex_digit (n : N) : ascii :=
  if (n <? 10)%N then ascii_of_N (48 + n) else ascii_of_N (87 + n).

(** [s.encode('hex')] *)
Fixpoint hex_encode (s : bytes) : string :=
  match s with
  | EmptyString => EmptyString
  | String c r =>
      let n := N_of_ascii c in
      String (hex_digit (n / 16)) (String (hex_digit (n mod 16)) (hex_encode r))
  end.

(** [s.decode('hex')]: [None] stands for the [TypeError] raised on an odd
    length or on a character that is no hexadecimal digit. *)
Fixpoint hex_decode (s : string) : option bytes :=
  match s with
  | EmptyString => Some EmptyString
  | String _ EmptyString => None
  | String a (String b r) =>
      match hex_digit_val a, hex_digit_val b, hex_decode r with
      | Some h, Some l, Some m => Some (String (ascii_of_N (16 * h + l)) m)
      | _, _, _ => None
      end
  end.

(** Exceptions that the modelled code can raise. *)
Inductive exn := KeyError | IndexError | TypeError | ZeroDivisionError.

Inductive result (A : Type) :=
| Ok (a : A)
| Raise (e : exn).
Arguments Ok {A} a.
Arguments Raise {A} e.

(** ** LteInterface *)

Module Lte.

Record LteInterface := mkLte {
  rx_port : Z;
  host_ip : option string;
  tx_port : option Z;
  message_counter : Z;
  bytes_counter : Z;
  last_time : Z;
  receive_time : Z;
  timeout : Z
}.

Inductive log :=
| NoLteMessage (elapsed : Z)
| ReceivedRate (count nbytes elapsed : Z)
| ReceivedData (count : Z)
| SendingTo (host : string) (port : option Z)
| NoIpPort.

Inductive action :=
| LogWarn (m : log)
| LogInfo (m : log)
| SendTo (data : bytes) (host : string) (port : option Z)
| OnMessageCallback (data : bytes).

(** How a handler ends: it returns, or it raises with the object in the
    state in which the exception found it. In both cases [o] lists the
    actions performed. *)
Inductive outcome :=
| Returned (s : LteInterface) (o : list action)
| Raised (x : exn) (s : LteInterface) (o : list action).

Definition state_of (r : outcome) : LteInterface :=
  match r with Returned s _ | Raised _ s _ => s end.

Definition trace_of (r : outcome) : list action :=
  match r with Returned _ o | Raised _ _ o => o end.

Definition is_returned (r : outcome) : bool :=
  match r with Returned _ _ => true | Raised _ _ _ => false end.

(** [__init__(rx_port, timeout)]; [t1] and [t2] are the two clock
    readings taken by the constructor. *)
Definition init (rx timeout_ t1 t2 : Z) : LteInterface :=
  {| rx_port := rx; host_ip := None; tx_port := None;
     message_counter := 0; bytes_counter := 0;
     last_time := t1; receive_time := t2; timeout := timeout_ |}.

(** Truth value of [self.__host_ip] in [if self.__host_ip:]: [None] and
    the empty string are false. *)
Definition truthy (h : option string) : bool :=
  match h with
  | None => false
  | Some s => negb (String.eqb s EmptyString)
  end.

(** [__on_receive_timeout]; [now] is the reading compared with the
    timeout, [now_log] the one formatted into the warning and [now_last]
    the one stored in [__last_time]. *)
Definition on_receive_timeout (now now_log now_last : Z) (s : LteInterface)
  : LteInterface * list action :=
  if (timeout s <? now - receive_time s)%Z then
    if truthy (host_ip s) then
      ({| rx_port := rx_port s; host_ip := None; tx_port := None;
          message_counter := 0; bytes_counter := 0;
          last_time := now_last; receive_time := receive_time s;
          timeout := timeout s |},
       [LogWarn (NoLteMessage (now_log - receive_time s))])
    else
      ({| rx_port := rx_port s; host_ip := host_ip s; tx_port := tx_port s;
          message_counter := message_counter s;
          bytes_counter := bytes_counter s;
          last_time := now_last; receive_time := receive_time s;
          timeout := timeout s |}, [])
  else (s, []).

(** [on_receive]: [(data, src)] is what [recvfrom] returns, [now] the
    reading stored in [__receive_time]; at every 1000th message
    [now_rate] is the reading of the rate line and [now_last] the one
    stored in [__last_time]. The rate line divides the byte count by
    [1000.0 * (now_rate - __last_time)]: when the two readings are equal
    the divisor is [0.0] and the division raises [ZeroDivisionError],
    after the receive time and the two counters were updated and before
    anything else is done. *)
Definition on_receive (data : bytes) (src : string * Z) (now now_rate now_last : Z)
    (s : LteInterface) : outcome :=
  let count := (message_counter s + 1)%Z in
  let nbytes := (bytes_counter s + (getsizeof data - 37))%Z in
  if (count mod 1000 =? 0)%Z then
    if (now_rate - last_time s =? 0)%Z then
      Raised ZeroDivisionError
        {| rx_port := rx_port s; host_ip := host_ip s; tx_port := tx_port s;
           message_counter := count; bytes_counter := nbytes;
           last_time := last_time s; receive_time := now;
           timeout := timeout s |} []
    else
      Returned
        {| rx_port := rx_port s; host_ip := Some (fst src);
           tx_port := Some (snd src);
           message_counter := count; bytes_counter := 0;
           last_time := now_last; receive_time := now;
           timeout := timeout s |}
        [LogWarn (ReceivedRate count nbytes (now_rate - last_time s));
         OnMessageCallback data]
  else
    Returned
      {| rx_port := rx_port s; host_ip := Some (fst src);
         tx_port := Some (snd src);
         message_counter := count; bytes_counter := nbytes;
         last_time := last_time s; receive_time := now;
         timeout := timeout s |}
      [LogInfo (ReceivedData count); OnMessageCallback data].

(** [send]. The method takes no lock and is called from the client's
    network thread; as a function of one state it describes a call that
    does not overlap the write of host and port by a handler of the
    event loop, and that is what a [Send] event below stands for. *)
Definition send (data : bytes) (s : LteInterface)
  : LteInterface * list action :=
  match host_ip s with
  | Some h => (s, [LogInfo (SendingTo h (tx_port s)); SendTo data h (tx_port s)])
  | None => (s, [LogWarn NoIpPort])
  end.

(** What can happen to the interface once it is open. *)
Inductive event :=
| Datagram (data : bytes) (src : string * Z) (now now_rate now_last : Z)
| LivenessCheck (now now_log now_last : Z)
| Send (data : bytes).

Definition returned (x : LteInterface * list action) : outcome :=
  Returned (fst x) (snd x).

Definition step (s : LteInterface) (e : event) : outcome :=
  match e with
  | Datagram data src now now_rate now_last =>
      on_receive data src now now_rate now_last s
  | LivenessCheck now now_log now_last =>
      returned (on_receive_timeout now now_log now_last s)
  | Send data => returned (send data s)
  end.

(** A handler's outcome after the actions [o] already performed. *)
Definition after (o : list action) (r : outcome) : outcome :=
  match r with
  | Returned s o' => Returned s (o ++ o')
  | Raised x s o' => Raised x s (o ++ o')
  end.

(** The interface over a sequence of events, up to the first exception. *)
Fixpoint run (s : LteInterface) (evs : list event) : outcome :=
  match evs with
  | [] => Returned s []
  | e :: evs' =>
      match step s e with
      | Returned s1 o1 => after o1 (run s1 evs')
      | Raised x s1 o1 => Raised x s1 o1
      end
  end.

(** The events of a sequence that are handled: those before the first
    exception, and the one that raises it. *)
Fixpoint handled (s : LteInterface) (evs : list event) : list event :=
  match evs with
  | [] => []
  | e :: evs' =>
      match step s e with
      | Returned s1 _ => e :: handled s1 evs'
      | Raised _ _ _ => [e]
      end
  end.

(** The events of a sequence whose handler returns. *)
Fixpoint completed (s : LteInterface) (evs : list event) : list event :=
  match evs with
  | [] => []
  | e :: evs' =>
      match step s e with
      | Returned s1 _ => e :: completed s1 evs'
      | Raised _ _ _ => []
      end
  end.

Definition is_datagram (e : event) : bool :=
  match e with Datagram _ _ _ _ _ => true | _ => false end.

Definition is_sendto (a : action) : bool :=
  match a with SendTo _ _ _ => true | _ => false end.

(** The source address reported by [recvfrom] on an [AF_INET] socket is
    a dotted-quad host string, hence not empty. *)
Definition wf_event (e : event) : Prop :=
  match e with
  | Datagram _ src _ _ _ => fst src <> EmptyString
  | _ => True
  end.

(** The learned peer address, as the pair the code passes to [sendto]. *)
Definition peer_address (s : LteInterface) : option string * option Z :=
  (host_ip s, tx_port s).

(** Invariant of the learned address: host and port are set and cleared
    together, and the host is never the empty string. *)
Definition host_wf (s : LteInterface) : Prop :=
  host_ip s <> Some EmptyString /\ (host_ip s = None -> tx_port s = None).

(** The datagram that the examples below feed to the interface. *)
Definition dgram (now : Z) : event :=
  Datagram "hi" ("1.2.3.4", 5000%Z) now now now.

(** The state reached after 999 datagrams handled within the clock tick
    in which the interface was constructed. *)
Definition after_999 : LteInterface :=
  state_of (run (init 5000 30 0 0) (repeat (dgram 0) 999)).

(** The 1000th datagram, from another address, handled within the clock
    tick in which the interface was constructed. *)
Definition dgram_same_tick : event :=
  Datagram "yo" ("9.9.9.9", 7000%Z) 0 0 0.

(** *** What a trace shows *)

(** Payloads handed to [on_message_callback], in order. *)
Definition callbacks (tr : list action) : list bytes :=
  flat_map (fun a => match a with OnMessageCallback d => [d] | _ => [] end) tr.

(** Payloads of the datagrams of an event sequence, in order. *)
Definition datagram_payloads (evs : list event) : list bytes :=
  flat_map (fun e => match e with Datagram d _ _ _ _ => [d] | _ => [] end) evs.

(** The warning of the liveness check. *)
Definition is_silence_warning (a : action) : bool :=
  match a with LogWarn (NoLteMessage _) => true | _ => false end.

Definition is_liveness_check (e : event) : bool :=
  match e with LivenessCheck _ _ _ => true | _ => false end.

End Lte.

(** ** IridiumInterface *)

Module Iridium.

(** A [tornado.httpclient.HTTPRequest]. The class defines neither
    [__eq__] nor [__hash__], so as a dictionary key a request stands for
    its object identity, [req_id]. *)
Record HTTPRequest := mkRequest {
  req_id : nat;
  req_url : string;
  req_method : string;
  req_body : string
}.

(** The part of a [tornado.httpclient.HTTPResponse] read by the code:
    the request it answers and [error], [None] or an exception object. *)
Record HTTPResponse := mkResponse {
  request : HTTPRequest;
  error : option string
}.

(** A [threading.Thread] created with [target=self.__repost_message]
    and [args=(data, idx)]; [thr_id] is its object identity. *)
Record Thread := mkThread {
  thr_id : nat;
  thr_args : bytes * Z;
  daemon : bool
}.

Record IridiumInterface := mkIridium {
  url : string;
  port : Z;
  waiting_for_confirm : gmap nat (Z * bytes);
  post_data : gmap string string;
  threads : list Thread;
  next_request : nat;
  next_thread : nat
}.

Inductive log :=
| ErrorSending (err : string)
| ReceivedMO
| FailedDecode
| SendingMT (idx : Z)
| StartingInterface (u : string).

Inductive action :=
| LogWarn (m : log)
| Fetch (req : HTTPRequest)
| ThreadStart (thr : Thread)
| Sleep (seconds : Z).

(** [__init__(iridium_url, local_port, rock7_credentials)]; the
    credentials dictionary is kept by reference and becomes the form that
    every outbound POST sends. *)
Definition init (iridium_url : string) (local_port : Z)
    (rock7_credentials : gmap string string) : IridiumInterface :=
  {| url := iridium_url; port := local_port; waiting_for_confirm := ∅;
     post_data := rock7_credentials; threads := []; next_request := 0;
     next_thread := 0 |}.

(** [list.remove(thr)]: drops the first element that is [thr]. *)
Fixpoint remove_thread (thr : Thread) (l : list Thread) : list Thread :=
  match l with
  | [] => []
  | t :: r => if Nat.eqb (thr_id t) (thr_id thr) then r else t :: remove_thread thr r
  end.

(** The loop [for thr in self.__threads: if not thr.is_alive():
    self.__threads.remove(thr)]. The list iterator keeps an index [i]
    into the list that the body shrinks, so the element that follows a
    removed one is skipped. *)
Fixpoint prune_from (fuel i : nat) (is_alive : nat -> bool) (l : list Thread)
  : list Thread :=
  match fuel with
  | O => l
  | S fuel' =>
      match l !! i with
      | None => l
      | Some thr =>
          if is_alive (thr_id thr) then prune_from fuel' (S i) is_alive l
          else prune_from fuel' (S i) is_alive (remove_thread thr l)
      end
  end.

Definition prune (is_alive : nat -> bool) (l : list Thread) : list Thread :=
  prune_from (length l) 0 is_alive l.

(** The delay of [__repost_message], in seconds. *)
Definition repost_delay : Z := 10.

(** [__on_message_sent(response)]; [is_alive] answers [thr.is_alive()]
    for the threads of the bookkeeping list. *)
Definition on_message_sent (response : HTTPResponse) (is_alive : nat -> bool)
    (s : IridiumInterface) : result (IridiumInterface * list action) :=
  match waiting_for_confirm s !! req_id (request response) with
  | None => Raise KeyError
  | Some (idx, data) =>
      let waiting := delete (req_id (request response)) (waiting_for_confirm s) in
      let thrs := prune is_alive (threads s) in
      match error response with
      | Some err =>
          let thr_redeliver :=
            {| thr_id := next_thread s; thr_args := (data, idx); daemon := true |} in
          Ok ({| url := url s; port := port s; waiting_for_confirm := waiting;
                 post_data := post_data s; threads := thrs ++ [thr_redeliver];
                 next_request := next_request s;
                 next_thread := S (next_thread s) |},
              [LogWarn (ErrorSending err); ThreadStart thr_redeliver])
      | None =>
          Ok ({| url := url s; port := port s; waiting_for_confirm := waiting;
                 post_data := post_data s; threads := thrs;
                 next_request := next_request s;
                 next_thread := next_thread s |}, [])
      end
  end.

Section WithUrlencode.

(** [tornado.httputil.urlencode], the serialisation of the form. *)
Variable urlencode : gmap string string -> string.

(** [post_message(data, idx)] *)
Definition post_message (data : bytes) (idx : Z) (s : IridiumInterface)
  : IridiumInterface * list action :=
  let form := <["data" := hex_encode data]> (post_data s) in
  let body := urlencode form in
  let req := {| req_id := next_request s; req_url := url s;
                req_method := "POST"; req_body := body |} in
  ({| url := url s; port := port s;
      waiting_for_confirm := <[req_id req := (idx, data)]> (waiting_for_confirm s);
      post_data := form; threads := threads s;
      next_request := S (next_request s); next_thread := next_thread s |},
   [LogWarn (SendingMT idx); Fetch req]).

(** [__repost_message(data, idx)] *)
Definition repost_message (data : bytes) (idx : Z) (s : IridiumInterface)
  : IridiumInterface * list action :=
  let '(s', o) := post_message data idx s in
  (s', Sleep repost_delay :: o).

(** The body of a started thread: the target applied to its arguments. *)
Definition thread_run (thr : Thread) (s : IridiumInterface)
  : IridiumInterface * list action :=
  repost_message (fst (thr_args thr)) (snd (thr_args thr)) s.

Inductive event :=
| PostMessage (data : bytes) (idx : Z)
| Response (response : HTTPResponse) (is_alive : nat -> bool)
| ThreadRun (thr : Thread).

Definition step (s : IridiumInterface) (e : event)
  : result (IridiumInterface * list action) :=
  match e with
  | PostMessage data idx => Ok (post_message data idx s)
  | Response response is_alive => on_message_sent response is_alive s
  | ThreadRun thr => Ok (thread_run thr s)
  end.

(** State after a sequence of events; an exception ends the run. *)
Fixpoint run (s : IridiumInterface) (evs : list event)
  : result IridiumInterface :=
  match evs with
  | [] => Ok s
  | e :: evs' =>
      match step s e with
      | Ok (s1, _) => run s1 evs'
      | Raise x => Raise x
      end
  end.

(** An endpoint that fails every delivery: each fetched request is
    answered with an error response, each started thread runs. *)
Definition failing_endpoint (is_alive : nat -> bool) (a : action) : list event :=
  match a with
  | Fetch req => [Response {| request := req; error := Some "HTTP 599" |} is_alive]
  | ThreadStart thr => [ThreadRun thr]
  | _ => []
  end.

(** The interface driven by the failing endpoint for [fuel] events, first
    come first served; the result is the final state and the actions
    emitted. *)
Fixpoint drive (fuel : nat) (is_alive : nat -> bool) (queue : list event)
    (s : IridiumInterface) : IridiumInterface * list action :=
  match fuel, queue with
  | S fuel', e :: q =>
      match step s e with
      | Ok (s1, o1) =>
          let '(s2, o2) :=
            drive fuel' is_alive (q ++ flat_map (failing_endpoint is_alive) o1) s1 in
          (s2, o1 ++ o2)
      | Raise _ => (s, [])
      end
  | _, _ => (s, [])
  end.

End WithUrlencode.

Definition is_response_for (k : nat) (e : event) : bool :=
  match e with
  | Response response _ => Nat.eqb (req_id (request response)) k
  | _ => false
  end.

(** Every pending key is an identity already handed out. *)
Definition keys_allocated (s : IridiumInterface) : Prop :=
  forall k, is_Some (waiting_for_confirm s !! k) -> (k < next_request s)%nat.

(** What a trace shows of the deliveries: arguments of the started retry
    threads, delays slept, sequence numbers logged and bodies fetched. *)
Definition started_args (tr : list action) : list (bytes * Z) :=
  flat_map (fun a => match a with ThreadStart thr => [thr_args thr] | _ => [] end) tr.

Definition slept (tr : list action) : list Z :=
  flat_map (fun a => match a with Sleep d => [d] | _ => [] end) tr.

Definition sent_indices (tr : list action) : list Z :=
  flat_map (fun a => match a with LogWarn (SendingMT i) => [i] | _ => [] end) tr.

Definition fetched_bodies (tr : list action) : list string :=
  flat_map (fun a => match a with Fetch req => [req_body req] | _ => [] end) tr.

(** A serialisation of the form for the examples: the fields in the
    order in which the map lists them, joined by [&]. *)
Definition urlencode_example (form : gmap string string) : string :=
  String.concat "&" (map (fun kv => fst kv +:+ "=" +:+ snd kv) (map_to_list form)).

(** An interface with one delivery in flight, and the error response to
    that delivery. *)
Definition one_in_flight : IridiumInterface :=
  fst (post_message urlencode_example "cmd1" 1
         (init "https://provider/MT" 8080 (<["imei" := "300234"]> ∅))).

Definition failure_of_first : HTTPResponse :=
  {| request := {| req_id := 0; req_url := "https://provider/MT";
                   req_method := "POST";
                   req_body := urlencode_example
                     (<["data" := "636d6431"]> (<["imei" := "300234"]> ∅)) |};
     error := Some "HTTP 599" |}.

(** *** The inbound endpoint, [PostHandler] *)

Section PostHandler.

Context {St Out : Type}.

(** [self.on_msg_callback], as a transformer of the state it acts on. *)
Variable on_msg_callback : bytes -> St -> St * list Out.

Inductive handler_action :=
| HLogWarn (m : log)
| SetStatus (code : Z)
| Finish
| Callback (msg : bytes) (outs : list Out).

(** [self.request.arguments['data'][0].decode('hex')] *)
Definition decode_data (arguments : gmap string (list string)) : result bytes :=
  match arguments !! "data" with
  | None => Raise KeyError
  | Some [] => Raise IndexError
  | Some (v :: _) =>
      match hex_decode v with
      | None => Raise TypeError
      | Some msg => Ok msg
      end
  end.

(** [post()] *)
Definition post (arguments : gmap string (list string)) (st : St)
  : St * list handler_action :=
  match decode_data arguments with
  | Raise _ => (st, [HLogWarn ReceivedMO; HLogWarn FailedDecode; SetStatus 400; Finish])
  | Ok msg =>
      let '(st', o) := on_msg_callback msg st in
      (st', [HLogWarn ReceivedMO; Callback msg o; Finish])
  end.

(** Status of the response that [finish()] sends: the one last set, 200
    when none was. *)
Fixpoint status_sent_from (status : Z) (tr : list handler_action) : option Z :=
  match tr with
  | [] => None
  | SetStatus code :: r => status_sent_from code r
  | Finish :: _ => Some status
  | _ :: r => status_sent_from status r
  end.

Definition status_sent (tr : list handler_action) : option Z :=
  status_sent_from 200 tr.

(** Payloads with which the callback was invoked. *)
Definition callback_calls (tr : list handler_action) : list bytes :=
  flat_map (fun a => match a with Callback msg _ => [msg] | _ => [] end) tr.

End PostHandler.

(** *** Runs with their trace *)

Section Traces.

Variable urlencode : gmap string string -> string.

(** State and emitted actions after a sequence of events; an exception
    ends the run. *)
Fixpoint run_out (s : IridiumInterface) (evs : list event)
  : result (IridiumInterface * list action) :=
  match evs with
  | [] => Ok (s, [])
  | e :: evs' =>
      match step urlencode s e with
      | Ok (s1, o1) =>
          match run_out s1 evs' with
          | Ok (s2, o2) => Ok (s2, o1 ++ o2)
          | Raise x => Raise x
          end
      | Raise x => Raise x
      end
  end.

End Traces.

(** Events that call [post_message]: a first delivery or a retry. *)
Definition is_post (e : event) : bool :=
  match e with
  | PostMessage _ _ | ThreadRun _ => true
  | Response _ _ => false
  end.

Definition is_response (e : event) : bool :=
  match e with Response _ _ => true | _ => false end.

Definition is_error_response (e : event) : bool :=
  match e with
  | Response response _ =>
      match error response with Some _ => true | None => false end
  | _ => false
  end.

Definition is_thread_start (a : action) : bool :=
  match a with ThreadStart _ => true | _ => false end.

(** Identities of the requests handed to [fetch], in order. *)
Definition fetched_ids (tr : list action) : list nat :=
  flat_map (fun a => match a with Fetch req => [req_id req] | _ => [] end) tr.

(** The payloads posted by an event sequence, in order. *)
Definition posted_payloads (evs : list event) : list bytes :=
  flat_map (fun e => match e with
                     | PostMessage d _ => [d]
                     | ThreadRun thr => [fst (thr_args thr)]
                     | Response _ _ => []
                     end) evs.

(** The form that a delivery of [data] sends, given the credentials. *)
Definition form_for (creds : gmap string string) (data : bytes)
  : gmap string string :=
  <["data" := hex_encode data]> creds.

(** *** A small run for the examples *)

Definition ok_or {A} (d : A) (r : result A) : A :=
  match r with Ok a => a | Raise _ => d end.

(** Two deliveries, the first of which fails once and is retried. *)
Definition demo_events : list event :=
  [PostMessage "cmd1" 1; PostMessage "cmd2" 2;
   Response failure_of_first (fun _ => true);
   ThreadRun {| thr_id := 0; thr_args := ("cmd1", 1%Z); daemon := true |};
   Response {| request := {| req_id := 1; req_url := "https://provider/MT";
                             req_method := "POST"; req_body := EmptyString |};
               error := None |} (fun _ => false)].

Definition demo_init : IridiumInterface :=
  init "https://provider/MT" 8080 (<["imei" := "300234"]> ∅).

Definition demo_final : IridiumInterface * list action :=
  ok_or (demo_init, []) (run_out urlencode_example demo_init demo_events).

(** Every character of a string is a hexadecimal digit. *)
Fixpoint all_hex (s : string) : bool :=
  match s with
  | EmptyString => true
  | String c r =>
      match hex_digit_val c with Some _ => all_hex r | None => false end
  end.

End Iridium.

(** ** MqttInterface *)

Module Mqtt.

Record MqttInterface := mkMqtt {
  broker_ip : string;
  broker_port : Z;
  broker_user : string;
  broker_pwd : string;
  client_connected_flag : bool;
  client_bad_connection_flag : bool;
  publish_counter : Z;
  iridium_counter : Z;
  iridium_timeout : Z;
  iridium_queue_cleared : bool;
  last_message_received : Z;
  (** the attribute [self.bad_connection_flag], which no method reads and
      which does not exist until [__on_connect] assigns it *)
  bad_connection_flag : option bool
}.

(** The two methods registered with [message_callback_add]. *)
Inductive handler := callback_LTE_handler | callback_SatCom_handler.

Inductive log :=
| ClearSatComQueue (elapsed : Z)
| UnknownTopic (topic : string)
| ConnectedWith (rc : Z)
| ServerUnavailable
| ConnectFailed (rc : Z)
| Disconnecting (rc : Z)
| ReceivedFrom (topic : string)
| Published (n : Z) (topic : string).

Inductive action :=
| LogInfo (m : log)
| LogWarn (m : log)
| LogError (m : log)
| Subscribe (topic : string) (qos : Z)
| MessageCallbackAdd (topic : string) (h : handler)
| Publish (topic : string) (payload : option bytes) (qos : Z) (retain : bool)
| LteOnMessageCallback (payload : bytes)
| SatcomOnMessageCallback (payload : bytes) (idx : Z)
| LoopStop
| SysExit.

(** [__init__(ip, port, user, pwd, iridium_timeout)]; [t0] is the clock
    reading taken by the constructor. *)
Definition init (ip : string) (port : Z) (user pwd : string)
    (iridium_timeout_ t0 : Z) : MqttInterface :=
  {| broker_ip := ip; broker_port := port; broker_user := user;
     broker_pwd := pwd; client_connected_flag := false;
     client_bad_connection_flag := false; publish_counter := 1;
     iridium_counter := 0; iridium_timeout := iridium_timeout_;
     iridium_queue_cleared := false; last_message_received := t0;
     bad_connection_flag := None |}.

Definition set_connected (b : bool) (s : MqttInterface) : MqttInterface :=
  {| broker_ip := broker_ip s; broker_port := broker_port s;
     broker_user := broker_user s; broker_pwd := broker_pwd s;
     client_connected_flag := b;
     client_bad_connection_flag := client_bad_connection_flag s;
     publish_counter := publish_counter s;
     iridium_counter := iridium_counter s;
     iridium_timeout := iridium_timeout s;
     iridium_queue_cleared := iridium_queue_cleared s;
     last_message_received := last_message_received s;
     bad_connection_flag := bad_connection_flag s |}.

Definition set_bad_connection_attr (b : bool) (s : MqttInterface) : MqttInterface :=
  {| broker_ip := broker_ip s; broker_port := broker_port s;
     broker_user := broker_user s; broker_pwd := broker_pwd s;
     client_connected_flag := client_connected_flag s;
     client_bad_connection_flag := client_bad_connection_flag s;
     publish_counter := publish_counter s;
     iridium_counter := iridium_counter s;
     iridium_timeout := iridium_timeout s;
     iridium_queue_cleared := iridium_queue_cleared s;
     last_message_received := last_message_received s;
     bad_connection_flag := Some b |}.

Definition set_publish_counter (n : Z) (s : MqttInterface) : MqttInterface :=
  {| broker_ip := broker_ip s; broker_port := broker_port s;
     broker_user := broker_user s; broker_pwd := broker_pwd s;
     client_connected_flag := client_connected_flag s;
     client_bad_connection_flag := client_bad_connection_flag s;
     publish_counter := n;
     iridium_counter := iridium_counter s;
     iridium_timeout := iridium_timeout s;
     iridium_queue_cleared := iridium_queue_cleared s;
     last_message_received := last_message_received s;
     bad_connection_flag := bad_connection_flag s |}.

Definition set_iridium_counter (n : Z) (s : MqttInterface) : MqttInterface :=
  {| broker_ip := broker_ip s; broker_port := broker_port s;
     broker_user := broker_user s; broker_pwd := broker_pwd s;
     client_connected_flag := client_connected_flag s;
     client_bad_connection_flag := client_bad_connection_flag s;
     publish_counter := publish_counter s;
     iridium_counter := n;
     iridium_timeout := iridium_timeout s;
     iridium_queue_cleared := iridium_queue_cleared s;
     last_message_received := last_message_received s;
     bad_connection_flag := bad_connection_flag s |}.

Definition set_queue_cleared (b : bool) (s : MqttInterface) : MqttInterface :=
  {| broker_ip := broker_ip s; broker_port := broker_port s;
     broker_user := broker_user s; broker_pwd := broker_pwd s;
     client_connected_flag := client_connected_flag s;
     client_bad_connection_flag := client_bad_connection_flag s;
     publish_counter := publish_counter s;
     iridium_counter := iridium_counter s;
     iridium_timeout := iridium_timeout s;
     iridium_queue_cleared := b;
     last_message_received := last_message_received s;
     bad_connection_flag := bad_connection_flag s |}.

Definition set_last_message_received (t : Z) (s : MqttInterface) : MqttInterface :=
  {| broker_ip := broker_ip s; broker_port := broker_port s;
     broker_user := broker_user s; broker_pwd := broker_pwd s;
     client_connected_flag := client_connected_flag s;
     client_bad_connection_flag := client_bad_connection_flag s;
     publish_counter := publish_counter s;
     iridium_counter := iridium_counter s;
     iridium_timeout := iridium_timeout s;
     iridium_queue_cleared := iridium_queue_cleared s;
     last_message_received := t;
     bad_connection_flag := bad_connection_flag s |}.

Definition LTE_to_plane : string := "telem/LTE_to_plane".
Definition SatCom_to_plane : string := "telem/SatCom_to_plane".
Definition LTE_from_plane : string := "telem/LTE_from_plane".
Definition SatCom_from_plane : string := "telem/SatCom_from_plane".

(** [__on_receive_timeout]; [now] is the reading compared with the
    timeout, [now_log] the one formatted into the warning. *)
Definition on_receive_timeout (now now_log : Z) (s : MqttInterface)
  : MqttInterface * list action :=
  if (iridium_timeout s <? now - last_message_received s)%Z
     && negb (iridium_queue_cleared s)
  then (set_queue_cleared true s,
        [Publish SatCom_from_plane None 0 true;
         LogWarn (ClearSatComQueue (now_log - last_message_received s))])
  else (s, []).

(** [__on_message] *)
Definition on_message (topic : string) (s : MqttInterface)
  : MqttInterface * list action :=
  (s, [LogWarn (UnknownTopic topic)]).

(** [__on_connect(client, userdata, flags, rc)] *)
Definition on_connect (rc : Z) (s : MqttInterface)
  : MqttInterface * list action :=
  if (rc =? 0)%Z then
    (set_connected true s,
     [LogWarn (ConnectedWith rc);
      Subscribe LTE_to_plane 2;
      Subscribe SatCom_to_plane 2;
      MessageCallbackAdd LTE_to_plane callback_LTE_handler;
      MessageCallbackAdd SatCom_to_plane callback_SatCom_handler])
  else if (rc =? 3)%Z then
    (s, [LogWarn ServerUnavailable])
  else
    (set_bad_connection_attr true s, [LogError (ConnectFailed rc)]).

(** [__on_disconnect(client, userdata, rc)] *)
Definition on_disconnect (rc : Z) (s : MqttInterface)
  : MqttInterface * list action :=
  (set_connected false s, [LogWarn (Disconnecting rc)]).

(** [__callback_SatCom(client, userdata, msg)] *)
Definition callback_SatCom (topic : string) (payload : bytes) (s : MqttInterface)
  : MqttInterface * list action :=
  let s1 := set_iridium_counter (iridium_counter s + 1) s in
  (s1, [LogInfo (ReceivedFrom topic);
        SatcomOnMessageCallback payload (iridium_counter s1)]).

(** [__callback_LTE(client, userdata, msg)] *)
Definition callback_LTE (topic : string) (payload : bytes) (s : MqttInterface)
  : MqttInterface * list action :=
  (s, [LogInfo (ReceivedFrom topic); LteOnMessageCallback payload]).

(** [__publish_message(topic, data, retain)] *)
Definition publish_message (topic : string) (data : bytes) (retain : bool)
    (s : MqttInterface) : MqttInterface * list action :=
  let s1 := set_publish_counter (publish_counter s + 1) s in
  (s1, [Publish topic (Some data) 2 retain;
        LogInfo (Published (publish_counter s1 - 1) topic)]).

(** [publish_lte_message(data)] *)
Definition publish_lte_message (data : bytes) (s : MqttInterface)
  : MqttInterface * list action :=
  publish_message LTE_from_plane data false s.

(** [publish_satcom_message(data)]; [now] is the reading stored in
    [__last_message_received]. *)
Definition publish_satcom_message (data : bytes) (now : Z) (s : MqttInterface)
  : MqttInterface * list action :=
  publish_message SatCom_from_plane data true
    (set_last_message_received now (set_queue_cleared false s)).

Inductive event :=
| OnConnect (rc : Z)
| OnDisconnect (rc : Z)
| OnMessage (topic : string)
| CallbackSatCom (topic : string) (payload : bytes)
| CallbackLTE (topic : string) (payload : bytes)
| PublishLte (data : bytes)
| PublishSatcom (data : bytes) (now : Z)
| StaleCheck (now now_log : Z).

Definition step (s : MqttInterface) (e : event) : MqttInterface * list action :=
  match e with
  | OnConnect rc => on_connect rc s
  | OnDisconnect rc => on_disconnect rc s
  | OnMessage topic => on_message topic s
  | CallbackSatCom topic payload => callback_SatCom topic payload s
  | CallbackLTE topic payload => callback_LTE topic payload s
  | PublishLte data => publish_lte_message data s
  | PublishSatcom data now => publish_satcom_message data now s
  | StaleCheck now now_log => on_receive_timeout now now_log s
  end.

Fixpoint run (s : MqttInterface) (evs : list event)
  : MqttInterface * list action :=
  match evs with
  | [] => (s, [])
  | e :: evs' =>
      let '(s1, o1) := step s e in
      let '(s2, o2) := run s1 evs' in
      (s2, o1 ++ o2)
  end.

(** How the wait loop of [__connect] ends. *)
Inductive wait_outcome :=
| Connected     (** the loop is left with the connected flag set *)
| Exited        (** the loop is left with the bad-connection flag set:
                    [loop_stop()] and [sys.exit()] *)
| StillWaiting. (** the loop is still polling *)

(** The loop [while not connected and not bad: time.sleep(1)] of
    [__connect]. The network thread runs the client's callbacks
    (connect, disconnect, message) while the loop sleeps: [polls] lists,
    for each sleep, the events handled meanwhile, in order. *)
Fixpoint connect_wait (polls : list (list event)) (s : MqttInterface)
  : wait_outcome * MqttInterface * list action :=
  if negb (client_connected_flag s) && negb (client_bad_connection_flag s) then
    match polls with
    | [] => (StillWaiting, s, [])
    | evs :: polls' =>
        let '(s1, o1) := run s evs in
        let '(w, s2, o2) := connect_wait polls' s1 in
        (w, s2, o1 ++ o2)
    end
  else if client_bad_connection_flag s then (Exited, s, [LoopStop; SysExit])
  else (Connected, s, []).

Definition is_connect_success (e : event) : bool :=
  match e with OnConnect rc => (rc =? 0)%Z | _ => false end.

Definition is_disconnect (e : event) : bool :=
  match e with OnDisconnect _ => true | _ => false end.

Definition is_publish_satcom (e : event) : bool :=
  match e with PublishSatcom _ _ => true | _ => false end.

(** The clearing publish: a retained null payload on the SatCom topic. *)
Definition is_clearing (a : action) : bool :=
  match a with
  | Publish topic None _ true => String.eqb topic SatCom_from_plane
  | _ => false
  end.

(** A stale check that finds the silence longer than the timeout. *)
Definition is_expired_check (s : MqttInterface) (e : event) : bool :=
  match e with
  | StaleCheck now _ => (iridium_timeout s <? now - last_message_received s)%Z
  | _ => false
  end.

(** Number of elements of a list that satisfy [p]. *)
Fixpoint count {A} (p : A -> bool) (l : list A) : nat :=
  match l with
  | [] => O
  | a :: r => ((if p a then 1 else 0) + count p r)%nat
  end.

(** QoS level of a subscribe or publish action. *)
Definition qos_of (a : action) : option Z :=
  match a with
  | Subscribe _ q => Some q
  | Publish _ _ q _ => Some q
  | _ => None
  end.

(** The QoS discipline of the code: level 2 for every subscription and
    for every publish of a payload, level 0 for the retained publish of
    a null payload on the SatCom topic. *)
Definition qos_as_coded (a : action) : Prop :=
  match a with
  | Subscribe _ q => q = 2%Z
  | Publish _ (Some _) q _ => q = 2%Z
  | Publish topic None q retain =>
      q = 0%Z /\ topic = SatCom_from_plane /\ retain = true
  | _ => True
  end.

(** A freshly constructed interface, for the examples. *)
Definition fresh : MqttInterface := init "broker" 1883 "user" "pwd" 600 0.

(** The wait loop of [__connect] keeps polling in this state. *)
Definition waiting (s : MqttInterface) : Prop :=
  client_connected_flag s = false /\ client_bad_connection_flag s = false.

(** *** What a trace shows *)

(** Events that publish a relayed payload. *)
Definition is_relayed_publish (e : event) : bool :=
  match e with
  | PublishLte _ | PublishSatcom _ _ => true
  | _ => false
  end.

(** Numbers logged by [__publish_message], in order. *)
Definition published_numbers (tr : list action) : list Z :=
  flat_map (fun a => match a with LogInfo (Published n _) => [n] | _ => [] end) tr.

(** Sequence indices handed to [satcom_on_message_callback], in order. *)
Definition sequence_indices (tr : list action) : list Z :=
  flat_map (fun a => match a with SatcomOnMessageCallback _ i => [i] | _ => [] end) tr.

(** The integers [first], [first + 1], ... ([n] of them). *)
Fixpoint zseq (first : Z) (n : nat) : list Z :=
  match n with
  | O => []
  | S n' => first :: zseq (first + 1) n'
  end.

Definition is_satcom_callback (e : event) : bool :=
  match e with CallbackSatCom _ _ => true | _ => false end.

Definition is_subscribe_to (topic : string) (a : action) : bool :=
  match a with Subscribe t _ => String.eqb t topic | _ => false end.

(** Retention as the code sets it: the SatCom topic is published
    retained, the LTE topic is not. *)
Definition retain_as_coded (a : action) : Prop :=
  match a with
  | Publish topic _ _ retain =>
      (topic = SatCom_from_plane /\ retain = true) \/
      (topic = LTE_from_plane /\ retain = false)
  | _ => True
  end.

End Mqtt.

(** ** The relay: the callback wiring of [main] *)

Module Relay.

Record Relay := mkRelay {
  mi : Mqtt.MqttInterface;
  li : Lte.LteInterface;
  ii : Iridium.IridiumInterface
}.

(** [ii.on_message_callback = mi.publish_satcom_message], acting on the
    relay; [now] is the clock reading that the callee takes. *)
Definition ii_on_message_callback (now : Z) (msg : bytes) (r : Relay)
  : Relay * list Mqtt.action :=
  let '(m, o) := Mqtt.publish_satcom_message msg now (mi r) in
  ({| mi := m; li := li r; ii := ii r |}, o).

(** [li.on_message_callback = mi.publish_lte_message] *)
Definition li_on_message_callback (data : bytes) (r : Relay)
  : Relay * list Mqtt.action :=
  let '(m, o) := Mqtt.publish_lte_message data (mi r) in
  ({| mi := m; li := li r; ii := ii r |}, o).

(** [mi.lte_on_message_callback = li.send] *)
Definition lte_on_message_callback (payload : bytes) (r : Relay)
  : Relay * list Lte.action :=
  let '(l, o) := Lte.send payload (li r) in
  ({| mi := mi r; li := l; ii := ii r |}, o).

(** [mi.satcom_on_message_callback = ii.post_message] *)
Definition satcom_on_message_callback (urlencode : gmap string string -> string)
    (payload : bytes) (idx : Z) (r : Relay) : Relay * list Iridium.action :=
  let '(i, o) := Iridium.post_message urlencode payload idx (ii r) in
  ({| mi := mi r; li := li r; ii := i |}, o).

(** The inbound Iridium endpoint of the running relay: [PostHandler.post]
    with the callback that [start()] hands it. *)
Definition mo_post (now : Z) (arguments : gmap string (list string)) (r : Relay)
  : Relay * list (Iridium.handler_action (Out := Mqtt.action)) :=
  Iridium.post (ii_on_message_callback now) arguments r.

(** A relay just constructed by [main]. *)
Definition example_relay : Relay :=
  {| mi := Mqtt.init "broker" 1883 "user" "pwd" 600 0;
     li := Lte.init 5000 30 0 0;
     ii := Iridium.init "https://provider/MT" 8080
             (<["imei" := "300234"]> (<["username" := "u"]> (<["password" := "p"]> ∅))) |}.

(** *** The relay as one machine *)

Inductive action :=
| LteAct (a : Lte.action)
| MqttAct (a : Mqtt.action)
| IridiumAct (a : Iridium.action)
| HandlerAct (a : Iridium.handler_action (Out := Mqtt.action)).

(** [li.on_receive]: the adapter's own work, then the callback wired to
    it, which is the last statement of the method. *)
Definition on_udp (data : bytes) (src : string * Z) (now now_rate now_last : Z)
    (r : Relay) : result (Relay * list action) :=
  match Lte.on_receive data src now now_rate now_last (li r) with
  | Lte.Returned l ol =>
      let '(r1, om) :=
        li_on_message_callback data {| mi := mi r; li := l; ii := ii r |} in
      Ok (r1, map LteAct ol ++ map MqttAct om)
  | Lte.Raised x _ _ => Raise x
  end.

(** [mi.__callback_LTE] with the callback wired to it. *)
Definition on_mqtt_lte (topic : string) (payload : bytes) (r : Relay)
  : Relay * list action :=
  let '(m, om) := Mqtt.callback_LTE topic payload (mi r) in
  let '(r1, ol) := lte_on_message_callback payload {| mi := m; li := li r; ii := ii r |} in
  (r1, map MqttAct om ++ map LteAct ol).

(** [mi.__callback_SatCom] with the callback wired to it. *)
Definition on_mqtt_satcom (urlencode : gmap string string -> string)
    (topic : string) (payload : bytes) (r : Relay) : Relay * list action :=
  let '(m, om) := Mqtt.callback_SatCom topic payload (mi r) in
  let '(r1, oi) :=
    satcom_on_message_callback urlencode payload (Mqtt.iridium_counter m)
      {| mi := m; li := li r; ii := ii r |} in
  (r1, map MqttAct om ++ map IridiumAct oi).

Inductive event :=
| Udp (data : bytes) (src : string * Z) (now now_rate now_last : Z)
| LteCheck (now now_log now_last : Z)
| MqttLte (topic : string) (payload : bytes)
| MqttSatcom (topic : string) (payload : bytes)
| MqttOther (topic : string)
| MqttConnect (rc : Z)
| MqttDisconnect (rc : Z)
| SatcomCheck (now now_log : Z)
| IridiumMO (arguments : gmap string (list string)) (now : Z)
| IridiumResponse (response : Iridium.HTTPResponse) (is_alive : nat -> bool)
| RetryThread (thr : Iridium.Thread).

Definition with_mi (r : Relay) (x : Mqtt.MqttInterface * list Mqtt.action)
  : Relay * list action :=
  ({| mi := fst x; li := li r; ii := ii r |}, map MqttAct (snd x)).

Definition with_li (r : Relay) (x : Lte.LteInterface * list Lte.action)
  : Relay * list action :=
  ({| mi := mi r; li := fst x; ii := ii r |}, map LteAct (snd x)).

Definition with_ii (r : Relay) (x : Iridium.IridiumInterface * list Iridium.action)
  : Relay * list action :=
  ({| mi := mi r; li := li r; ii := fst x |}, map IridiumAct (snd x)).

Definition step (urlencode : gmap string string -> string) (r : Relay) (e : event)
  : result (Relay * list action) :=
  match e with
  | Udp data src now now_rate now_last => on_udp data src now now_rate now_last r
  | LteCheck now now_log now_last =>
      Ok (with_li r (Lte.on_receive_timeout now now_log now_last (li r)))
  | MqttLte topic payload => Ok (on_mqtt_lte topic payload r)
  | MqttSatcom topic payload => Ok (on_mqtt_satcom urlencode topic payload r)
  | MqttOther topic => Ok (with_mi r (Mqtt.on_message topic (mi r)))
  | MqttConnect rc => Ok (with_mi r (Mqtt.on_connect rc (mi r)))
  | MqttDisconnect rc => Ok (with_mi r (Mqtt.on_disconnect rc (mi r)))
  | SatcomCheck now now_log =>
      Ok (with_mi r (Mqtt.on_receive_timeout now now_log (mi r)))
  | IridiumMO arguments now =>
      let '(r1, o) := mo_post now arguments r in Ok (r1, map HandlerAct o)
  | IridiumResponse response is_alive =>
      match Iridium.on_message_sent response is_alive (ii r) with
      | Ok x => Ok (with_ii r x)
      | Raise x => Raise x
      end
  | RetryThread thr => Ok (with_ii r (Iridium.thread_run urlencode thr (ii r)))
  end.

Fixpoint run (urlencode : gmap string string -> string) (r : Relay)
    (evs : list event) : result (Relay * list action) :=
  match evs with
  | [] => Ok (r, [])
  | e :: evs' =>
      match step urlencode r e with
      | Ok (r1, o1) =>
          match run urlencode r1 evs' with
          | Ok (r2, o2) => Ok (r2, o1 ++ o2)
          | Raise x => Raise x
          end
      | Raise x => Raise x
      end
  end.

(** Events of the LTE side and events of the SatCom side. *)
Definition is_lte_event (e : event) : bool :=
  match e with
  | Udp _ _ _ _ _ | LteCheck _ _ _ | MqttLte _ _ => true
  | _ => false
  end.

Definition is_satcom_event (e : event) : bool :=
  match e with
  | MqttSatcom _ _ | SatcomCheck _ _ | IridiumMO _ _
  | IridiumResponse _ _ | RetryThread _ => true
  | _ => false
  end.

(** The part of the MQTT interface that the SatCom side uses. *)
Definition satcom_state (m : Mqtt.MqttInterface) : Z * bool * Z :=
  (Mqtt.iridium_counter m, Mqtt.iridium_queue_cleared m,
   Mqtt.last_message_received m).

(** MQTT publishes of a trace, in order. *)
Definition publishes (tr : list action) : list Mqtt.action :=
  flat_map (fun a => match a with
                     | MqttAct (Mqtt.Publish t p q rt) => [Mqtt.Publish t p q rt]
                     | HandlerAct (Iridium.Callback _ o) =>
                         flat_map (fun b => match b with
                                            | Mqtt.Publish _ _ _ _ => [b]
                                            | _ => []
                                            end) o
                     | _ => []
                     end) tr.

(** UDP transmissions of a trace, in order. *)
Definition transmissions (tr : list action) : list (bytes * string * option Z) :=
  flat_map (fun a => match a with
                     | LteAct (Lte.SendTo d h p) => [(d, h, p)]
                     | _ => []
                     end) tr.

(** Payloads published on a topic, in order (the clearing publish
    carries none). *)
Definition relayed_on (topic : string) (tr : list action) : list bytes :=
  flat_map (fun a => match a with
                     | Mqtt.Publish t (Some p) _ _ =>
                         if String.eqb t topic then [p] else []
                     | _ => []
                     end) (publishes tr).

(** Payloads of the UDP datagrams of an event sequence, in order. *)
Definition udp_payloads (evs : list event) : list bytes :=
  flat_map (fun e => match e with Udp d _ _ _ _ => [d] | _ => [] end) evs.

(** Payloads of the inbound Iridium messages that decode, in order. *)
Definition mo_payloads (evs : list event) : list bytes :=
  flat_map (fun e => match e with
                     | IridiumMO arguments _ =>
                         match Iridium.decode_data arguments with
                         | Ok msg => [msg]
                         | Raise _ => []
                         end
                     | _ => []
                     end) evs.

(** A day in the life of the example relay. *)
Definition demo_events : list event :=
  [MqttConnect 0;
   Udp "hi" ("1.2.3.4", 5000%Z) 1 1 1;
   MqttSatcom "telem/SatCom_to_plane" "cmd1";
   IridiumMO (<["data" := ["6869"]]> ∅) 5;
   IridiumMO (<["data" := ["68zz"]]> ∅) 6;
   MqttLte "telem/LTE_to_plane" "bye";
   SatcomCheck 700 700;
   Udp "yo" ("1.2.3.4", 5000%Z) 701 701 701].

Definition demo_final : Relay * list action :=
  Iridium.ok_or (example_relay, [])
    (run Iridium.urlencode_example example_relay demo_events).

End Relay.

(* ====================================================================== *)
(** * Properties *)
(* ====================================================================== *)

(** ** The hex codec *)

Example hex_decode_hi : hex_decode "6869" = Some "hi".
Proof. reflexivity. Qed.

Example hex_decode_upper : hex_decode "6A6b" = Some "jk".
Proof. reflexivity. Qed.

Example hex_decode_odd : hex_decode "686" = None.
Proof. reflexivity. Qed.

Example hex_decode_bad_digit : hex_decode "6g" = None.
Proof. reflexivity. Qed.

Example hex_encode_cmd1 : hex_encode "cmd1" = "636d6431".
Proof. reflexivity. Qed.

(** Decoding undoes encoding. *)
Lemma hex_decode_encode (s : bytes) : hex_decode (hex_encode s) = Some s.
Proof.
  induction s as [|c s IH]; [reflexivity|].
  cbn [hex_encode hex_decode]. rewrite IH.
  destruct c as [[] [] [] [] [] [] [] []]; reflexivity.
Qed.

(** ** LteInterface *)

Module LteProofs.
Import Lte.

Lemma after_nil r : after [] r = r.
Proof. destruct r; reflexivity. Qed.

Lemma after_after o1 o2 r : after o1 (after o2 r) = after (o1 ++ o2) r.
Proof. destruct r; simpl; now rewrite app_assoc. Qed.

Lemma state_of_after o r : state_of (after o r) = state_of r.
Proof. destruct r; reflexivity. Qed.

Lemma trace_of_after o r : trace_of (after o r) = o ++ trace_of r.
Proof. destruct r; reflexivity. Qed.

Lemma lte_run_app s evs1 evs2 :
  run s (evs1 ++ evs2) =
  match run s evs1 with
  | Returned s1 o1 => after o1 (run s1 evs2)
  | Raised x s1 o1 => Raised x s1 o1
  end.
Proof.
  revert s. induction evs1 as [|e evs1 IH]; intros s; simpl.
  - now rewrite after_nil.
  - destruct (step s e) as [s1 o1|x s1 o1]; [|reflexivity].
    rewrite IH. destruct (run s1 evs1) as [s2 o2|x s2 o2]; simpl; [|reflexivity].
    now rewrite after_after.
Qed.

Lemma truthy_wf s : host_wf s -> truthy (host_ip s) = false -> host_ip s = None.
Proof.
  unfold host_wf, truthy. destruct (host_ip s) as [h|]; [|reflexivity].
  intros [Hwf _] Ht. apply negb_false_iff, String.eqb_eq in Ht. congruence.
Qed.

Lemma step_host_wf s e : wf_event e -> host_wf s -> host_wf (state_of (step s e)).
Proof.
  unfold host_wf. destruct e as [data src now nr nl|now nlog nl|data]; simpl.
  - intros Hsrc Hwf. unfold on_receive.
    destruct (_ =? 0)%Z; [destruct (_ =? 0)%Z|]; simpl;
      first [exact Hwf | split; congruence].
  - intros _ Hwf. unfold on_receive_timeout.
    destruct (_ <? _)%Z; [|exact Hwf].
    destruct (truthy _); simpl; [split; congruence|exact Hwf].
  - intros _ Hwf. unfold send. destruct (host_ip s) eqn:E; simpl; rewrite E; exact Hwf.
Qed.

Lemma run_host_wf evs : forall s,
  Forall wf_event evs -> host_wf s -> host_wf (state_of (run s evs)).
Proof.
  induction evs as [|e evs IH]; intros s Hev Hwf; simpl; [exact Hwf|].
  inversion Hev as [|? ? He Hevs]; subst.
  pose proof (step_host_wf s e He Hwf) as H1.
  destruct (step s e) as [s1 o1|x s1 o1]; simpl in H1; [|exact H1].
  rewrite state_of_after. now apply IH.
Qed.

Lemma init_host_wf rx tmo t1 t2 : host_wf (init rx tmo t1 t2).
Proof. unfold host_wf. simpl. split; [discriminate|reflexivity]. Qed.

(** A liveness check that finds the silence longer than the timeout
    leaves no peer address. *)
Lemma expired_check_clears s now nlog nl :
  host_wf s -> (timeout s < now - receive_time s)%Z ->
  peer_address (fst (on_receive_timeout now nlog nl s)) = (None, None).
Proof.
  intros Hwf Hlt. unfold on_receive_timeout.
  apply Z.ltb_lt in Hlt. rewrite Hlt.
  destruct (truthy (host_ip s)) eqn:Ht; simpl; [reflexivity|].
  pose proof (truthy_wf s Hwf Ht) as Hn. destruct Hwf as [_ Hp].
  unfold peer_address. simpl. now rewrite Hn, (Hp Hn).
Qed.

(** With no peer known, neither a send nor a liveness check emits a
    transmission or learns a peer, and neither raises. *)
Lemma quiet_step s e :
  host_ip s = None -> is_datagram e = false ->
  is_returned (step s e) = true /\
  host_ip (state_of (step s e)) = None /\
  Forall (fun a => is_sendto a = false) (trace_of (step s e)).
Proof.
  intros Hh He. destruct e as [data src now nr nl|now nlog nl|data];
    simpl in *; [discriminate| |].
  - split; [reflexivity|].
    unfold on_receive_timeout. destruct (_ <? _)%Z; simpl; [|auto].
    rewrite Hh. simpl. auto.
  - split; [reflexivity|]. unfold send. rewrite Hh. simpl. split; [exact Hh|].
    repeat constructor.
Qed.

Lemma quiet_run evs : forall s,
  host_ip s = None ->
  Forall (fun e => is_datagram e = false) evs ->
  is_returned (run s evs) = true /\
  host_ip (state_of (run s evs)) = None /\
  Forall (fun a => is_sendto a = false) (trace_of (run s evs)).
Proof.
  induction evs as [|e evs IH]; intros s Hh Hev; simpl; [auto|].
  inversion Hev as [|? ? He Hevs]; subst.
  destruct (quiet_step s e Hh He) as (H0 & H1 & H2).
  destruct (step s e) as [s1 o1|x s1 o1]; simpl in H0, H1, H2; [|discriminate].
  destruct (IH s1 H1 Hevs) as (H3 & H4 & H5).
  destruct (run s1 evs) as [s2 o2|x s2 o2]; simpl in *; [|discriminate].
  split; [reflexivity|]. split; [exact H4|]. apply Forall_app; auto.
Qed.

Example scenario_learn_then_send :
  run (init 5000 30 0 0) [dgram 1; Send "bye"] =
  Returned
    {| rx_port := 5000; host_ip := Some "1.2.3.4"; tx_port := Some 5000%Z;
       message_counter := 1; bytes_counter := 2; last_time := 0;
       receive_time := 1; timeout := 30 |}
    [LogInfo (ReceivedData 1); OnMessageCallback "hi";
     LogInfo (SendingTo "1.2.3.4" (Some 5000%Z));
     SendTo "bye" "1.2.3.4" (Some 5000%Z)].
Proof. reflexivity. Qed.

Lemma after_999_run :
  run (init 5000 30 0 0) (repeat (dgram 0) 999) =
  Returned after_999 (trace_of (run (init 5000 30 0 0) (repeat (dgram 0) 999))).
Proof. vm_compute. reflexivity. Qed.

(** C8 (the code departs from it). A datagram whose handler returns
    leaves its source address as the learned peer, whatever the state
    before. But at a datagram that makes the message count a multiple of
    1000 and whose rate-line clock reading equals [__last_time], the
    division of the rate line raises [ZeroDivisionError] before the
    address is stored: the handler ends there and the peer learned
    before, if any, is kept. *)
Theorem last_datagram_peer_unless_rate_line_raises
    (s s1 : LteInterface) (evs : list event) (o1 : list action)
    (data : bytes) (src : string * Z) (now now_rate now_last : Z) :
  run s evs = Returned s1 o1 ->
  (((message_counter s1 + 1) mod 1000 = 0)%Z /\ now_rate = last_time s1 ->
   is_returned (run s (evs ++ [Datagram data src now now_rate now_last])) = false /\
   peer_address (state_of (run s (evs ++ [Datagram data src now now_rate now_last])))
     = peer_address s1 /\
   trace_of (run s (evs ++ [Datagram data src now now_rate now_last])) = o1) /\
  (~ (((message_counter s1 + 1) mod 1000 = 0)%Z /\ now_rate = last_time s1) ->
   is_returned (run s (evs ++ [Datagram data src now now_rate now_last])) = true /\
   peer_address (state_of (run s (evs ++ [Datagram data src now now_rate now_last])))
     = (Some (fst src), Some (snd src))).
Proof.
  intros Hrun. rewrite lte_run_app, Hrun. cbn [run step]. unfold on_receive.
  split.
  - intros [Hm Ht]. apply Z.eqb_eq in Hm. rewrite Hm.
    assert (Hz : (now_rate - last_time s1 =? 0)%Z = true) by (apply Z.eqb_eq; lia).
    rewrite Hz. simpl. rewrite app_nil_r. auto.
  - intros Hno. destruct (_ mod 1000 =? 0)%Z eqn:Hm.
    + destruct (now_rate - last_time s1 =? 0)%Z eqn:Hz.
      * exfalso. apply Hno. apply Z.eqb_eq in Hm, Hz. split; [exact Hm|lia].
      * simpl. auto.
    + simpl. auto.
Qed.

Lemma last_datagram_peer_unless_rate_line_raises_witness :
  is_returned (run (init 5000 30 0 0)
                 (repeat (dgram 0) 999 ++ [dgram_same_tick])) = false /\
  peer_address (state_of (run (init 5000 30 0 0)
                            (repeat (dgram 0) 999 ++ [dgram_same_tick])))
    = peer_address after_999 /\
  trace_of (run (init 5000 30 0 0) (repeat (dgram 0) 999 ++ [dgram_same_tick]))
    = trace_of (run (init 5000 30 0 0) (repeat (dgram 0) 999)).
Proof.
  apply (last_datagram_peer_unless_rate_line_raises (init 5000 30 0 0) after_999
           (repeat (dgram 0) 999)
           (trace_of (run (init 5000 30 0 0) (repeat (dgram 0) 999)))
           "yo" ("9.9.9.9", 7000%Z) 0 0 0 after_999_run).
  split; vm_compute; reflexivity.
Defined.

Example old_peer_kept_when_rate_line_raises :
  step after_999 dgram_same_tick =
  Raised ZeroDivisionError
    {| rx_port := 5000; host_ip := Some "1.2.3.4"; tx_port := Some 5000%Z;
       message_counter := 1000; bytes_counter := 2000; last_time := 0;
       receive_time := 0; timeout := 30 |} [].
Proof. vm_compute. reflexivity. Qed.

(** C4. Once the liveness check has fired on a silence longer than the
    timeout, no peer address is known, a send is dropped with the
    warning, and no later send transmits anything until a new datagram
    arrives. *)
Theorem silence_invalidates_peer_and_drops_send
    (rx tmo t1 t2 : Z) (evs later : list event) (now now_log now_last : Z) :
  Forall wf_event evs ->
  (timeout (state_of (run (init rx tmo t1 t2) evs))
   < now - receive_time (state_of (run (init rx tmo t1 t2) evs)))%Z ->
  Forall (fun e => is_datagram e = false) later ->
  let s' := fst (on_receive_timeout now now_log now_last
                   (state_of (run (init rx tmo t1 t2) evs))) in
  peer_address s' = (None, None) /\
  (forall data, send data s' = (s', [LogWarn NoIpPort])) /\
  Forall (fun a => is_sendto a = false) (trace_of (run s' later)).
Proof.
  intros Hev Hlt Hlater s'.
  pose proof (run_host_wf evs _ Hev (init_host_wf rx tmo t1 t2)) as Hwf.
  pose proof (expired_check_clears _ now now_log now_last Hwf Hlt) as Hc.
  fold s' in Hc. unfold peer_address in Hc.
  assert (Hh : host_ip s' = None) by congruence.
  split; [exact Hc|]. split.
  - intros data. unfold send. now rewrite Hh.
  - apply (quiet_run later s' Hh Hlater).
Qed.

Lemma silence_invalidates_peer_and_drops_send_witness :
  let s' := fst (on_receive_timeout 40 40 40
                   (state_of (run (init 5000 30 0 0) [dgram 1; Send "bye"]))) in
  peer_address s' = (None, None) /\
  (forall data, send data s' = (s', [LogWarn NoIpPort])) /\
  Forall (fun a => is_sendto a = false)
         (trace_of (run s' [Send "x"; LivenessCheck 80 80 80; Send "y"])).
Proof.
  apply (silence_invalidates_peer_and_drops_send 5000 30 0 0
           [dgram 1; Send "bye"]
           [Send "x"; LivenessCheck 80 80 80; Send "y"] 40 40 40).
  - repeat constructor; simpl; discriminate.
  - simpl. lia.
  - repeat constructor.
Defined.

(** C9, as stated, fails: the 1000th datagram resets the byte counter
    but leaves the message counter at 1000. *)
Lemma message_counter_not_reset_at_1000th :
  ((message_counter after_999 + 1) mod 1000 = 0)%Z /\
  is_returned (step after_999 (dgram 2)) = true /\
  bytes_counter (state_of (step after_999 (dgram 2))) = 0%Z /\
  message_counter (state_of (step after_999 (dgram 2))) = 1000%Z /\
  ~ (message_counter (state_of (step after_999 (dgram 2))) = 0%Z /\
     bytes_counter (state_of (step after_999 (dgram 2))) = 0%Z).
Proof.
  assert (H : step after_999 (dgram 2) =
              Returned
                {| rx_port := 5000; host_ip := Some "1.2.3.4";
                   tx_port := Some 5000%Z; message_counter := 1000;
                   bytes_counter := 0; last_time := 2; receive_time := 2;
                   timeout := 30 |}
                [LogWarn (ReceivedRate 1000 2000 2); OnMessageCallback "hi"])
    by (vm_compute; reflexivity).
  assert (H9 : message_counter after_999 = 999%Z) by (vm_compute; reflexivity).
  rewrite H, H9. simpl.
  repeat split; try reflexivity. intros [Hc _]. discriminate Hc.
Qed.

(** C9, amended. At each inbound datagram that makes the running message
    count a multiple of 1000 and whose throughput line is logged (the
    clock reading of the line differs from [__last_time]) the line is
    logged first, then the byte counter is reset; the message counter is
    not reset there and keeps counting. *)
Theorem byte_window_reset_every_1000th
    (s : LteInterface) (data : bytes) (src : string * Z)
    (now now_rate now_last : Z) :
  ((message_counter s + 1) mod 1000 = 0)%Z ->
  now_rate <> last_time s ->
  is_returned (on_receive data src now now_rate now_last s) = true /\
  trace_of (on_receive data src now now_rate now_last s) =
    [LogWarn (ReceivedRate (message_counter s + 1) (bytes_counter s + len data)
                           (now_rate - last_time s));
     OnMessageCallback data] /\
  bytes_counter (state_of (on_receive data src now now_rate now_last s)) = 0%Z /\
  message_counter (state_of (on_receive data src now now_rate now_last s)) =
    (message_counter s + 1)%Z.
Proof.
  intros Hm Hr. unfold on_receive. apply Z.eqb_eq in Hm. rewrite Hm.
  assert (Hz : (now_rate - last_time s =? 0)%Z = false) by (apply Z.eqb_neq; lia).
  rewrite Hz. simpl. unfold getsizeof. repeat split. do 3 f_equal. lia.
Qed.

Lemma byte_window_reset_every_1000th_witness :
  is_returned (on_receive "hi" ("1.2.3.4", 5000%Z) 2 2 2 after_999) = true /\
  trace_of (on_receive "hi" ("1.2.3.4", 5000%Z) 2 2 2 after_999) =
    [LogWarn (ReceivedRate (message_counter after_999 + 1)
                           (bytes_counter after_999 + len "hi")
                           (2 - last_time after_999));
     OnMessageCallback "hi"] /\
  bytes_counter (state_of (on_receive "hi" ("1.2.3.4", 5000%Z) 2 2 2 after_999)) = 0%Z /\
  message_counter (state_of (on_receive "hi" ("1.2.3.4", 5000%Z) 2 2 2 after_999)) =
    (message_counter after_999 + 1)%Z.
Proof.
  apply (byte_window_reset_every_1000th after_999 "hi" ("1.2.3.4", 5000%Z) 2 2 2).
  - vm_compute. reflexivity.
  - vm_compute. discriminate.
Defined.

End LteProofs.


(** ** MqttInterface *)

Module MqttProofs.
Import Mqtt.

Lemma count_app {A} (p : A -> bool) (l1 l2 : list A) :
  count p (l1 ++ l2) = (count p l1 + count p l2)%nat.
Proof. induction l1 as [|a l1 IH]; simpl; [reflexivity|]. rewrite IH. lia. Qed.

Lemma mqtt_run_app s evs1 evs2 :
  run s (evs1 ++ evs2) =
  let '(s1, o1) := run s evs1 in
  let '(s2, o2) := run s1 evs2 in
  (s2, o1 ++ o2).
Proof.
  revert s. induction evs1 as [|e evs1 IH]; intros s; simpl.
  - destruct (run s evs2); reflexivity.
  - destruct (step s e) as [s1 o1]. rewrite IH.
    destruct (run s1 evs1) as [s2 o2].
    destruct (run s2 evs2) as [s3 o3].
    now rewrite app_assoc.
Qed.

(** *** The connect handler and the wait loop *)

(** No result code makes the connect handler write the flag that the
    wait loop polls. *)
Lemma on_connect_polled_flag rc s :
  client_bad_connection_flag (fst (on_connect rc s)) = client_bad_connection_flag s.
Proof.
  unfold on_connect. destruct (rc =? 0)%Z; [reflexivity|].
  destruct (rc =? 3)%Z; reflexivity.
Qed.

Lemma on_connect_failure_connected rc s :
  rc <> 0%Z ->
  client_connected_flag (fst (on_connect rc s)) = client_connected_flag s.
Proof.
  intros Hrc. unfold on_connect. apply Z.eqb_neq in Hrc. rewrite Hrc.
  destruct (rc =? 3)%Z; reflexivity.
Qed.

(** No handler writes the flag that the wait loop polls for failure. *)
Lemma step_polled_flag s e :
  client_bad_connection_flag (fst (step s e)) = client_bad_connection_flag s.
Proof.
  destruct e; simpl; try reflexivity.
  - apply on_connect_polled_flag.
  - unfold on_receive_timeout. destruct (_ && _); reflexivity.
Qed.

(** An event that is no successful connect does not set the connected
    flag. *)
Lemma step_not_connected s e :
  is_connect_success e = false -> client_connected_flag s = false ->
  client_connected_flag (fst (step s e)) = false.
Proof.
  intros He Hc. destruct e; simpl in *; try exact Hc; try reflexivity.
  - unfold on_connect. rewrite He. destruct (rc =? 3)%Z; exact Hc.
  - unfold on_receive_timeout. destruct (_ && _); exact Hc.
Qed.

Lemma run_polled_flag evs : forall s,
  client_bad_connection_flag (fst (run s evs)) = client_bad_connection_flag s.
Proof.
  induction evs as [|e evs IH]; intros s; simpl; [reflexivity|].
  pose proof (step_polled_flag s e) as H1. destruct (step s e) as [s1 o1].
  specialize (IH s1). destruct (run s1 evs) as [s2 o2]. simpl in *. congruence.
Qed.

Lemma deliver_failures_waiting evs : forall s,
  Forall (fun e => is_connect_success e = false) evs -> waiting s ->
  waiting (fst (run s evs)).
Proof.
  induction evs as [|e evs IH]; intros s Hev Hw; simpl; [exact Hw|].
  inversion Hev as [|? ? He Hrest]; subst. destruct Hw as [Hc Hb].
  pose proof (step_polled_flag s e) as H1.
  pose proof (step_not_connected s e He Hc) as H2.
  destruct (step s e) as [s1 o1]. simpl in H1, H2.
  assert (Hw1 : waiting s1) by (split; congruence).
  specialize (IH s1 Hrest Hw1). destruct (run s1 evs) as [s2 o2]. exact IH.
Qed.

Lemma connect_wait_never_exits polls : forall s,
  Forall (Forall (fun e => is_connect_success e = false)) polls -> waiting s ->
  fst (fst (connect_wait polls s)) = StillWaiting.
Proof.
  induction polls as [|evs polls IH]; intros s Hp [Hc Hb]; simpl;
    rewrite Hc, Hb; simpl; [reflexivity|].
  inversion Hp as [|? ? Hevs Hrest]; subst.
  pose proof (deliver_failures_waiting evs s Hevs (conj Hc Hb)) as Hw.
  destruct (run s evs) as [s1 o1]. simpl in Hw.
  specialize (IH s1 Hrest Hw).
  destruct (connect_wait polls s1) as [[w s2] o2]. exact IH.
Qed.

(** C1 (the code departs from it). A result code other than 0 and 3
    makes the connect handler assign the attribute [bad_connection_flag],
    which nothing reads; the flag polled by the wait loop,
    [__client_bad_connection_flag], keeps its value, and the wait loop
    of an interface that was waiting keeps polling, whatever the network
    thread handles meanwhile short of a successful connect. *)
Theorem refused_connect_leaves_polled_flag_unset
    (rc : Z) (s : MqttInterface) (polls : list (list event)) :
  rc <> 0%Z -> rc <> 3%Z -> waiting s ->
  Forall (Forall (fun e => is_connect_success e = false)) polls ->
  bad_connection_flag (fst (on_connect rc s)) = Some true /\
  client_bad_connection_flag (fst (on_connect rc s)) = false /\
  snd (on_connect rc s) = [LogError (ConnectFailed rc)] /\
  fst (fst (connect_wait polls (fst (on_connect rc s)))) = StillWaiting.
Proof.
  intros H0 H3 Hw Hp.
  pose proof (on_connect_polled_flag rc s) as Hb.
  pose proof (on_connect_failure_connected rc s H0) as Hc.
  assert (Hw' : waiting (fst (on_connect rc s))).
  { destruct Hw as [Hw1 Hw2]. split; congruence. }
  split; [|split; [|split]].
  - unfold on_connect. apply Z.eqb_neq in H0, H3. now rewrite H0, H3.
  - apply Hw'.
  - unfold on_connect. apply Z.eqb_neq in H0, H3. now rewrite H0, H3.
  - apply connect_wait_never_exits; assumption.
Qed.

Lemma refused_connect_leaves_polled_flag_unset_witness :
  bad_connection_flag (fst (on_connect 5 fresh)) = Some true /\
  client_bad_connection_flag (fst (on_connect 5 fresh)) = false /\
  snd (on_connect 5 fresh) = [LogError (ConnectFailed 5)] /\
  fst (fst (connect_wait [[]; [OnConnect 5; OnDisconnect 5]; []]
              (fst (on_connect 5 fresh)))) = StillWaiting.
Proof.
  apply (refused_connect_leaves_polled_flag_unset 5 fresh
           [[]; [OnConnect 5; OnDisconnect 5]; []]).
  - lia.
  - lia.
  - split; reflexivity.
  - repeat constructor; lia.
Defined.

Example connect_wait_success :
  connect_wait [[]; [OnConnect 3]; [OnConnect 0]] fresh =
  (Connected, set_connected true fresh,
   [LogWarn ServerUnavailable; LogWarn (ConnectedWith 0);
    Subscribe LTE_to_plane 2; Subscribe SatCom_to_plane 2;
    MessageCallbackAdd LTE_to_plane callback_LTE_handler;
    MessageCallbackAdd SatCom_to_plane callback_SatCom_handler]).
Proof. reflexivity. Qed.

(** A connect that is lost again within the same sleep goes unnoticed:
    the loop keeps polling. *)
Example connect_wait_misses_lost_connect :
  fst (fst (connect_wait [[OnConnect 0; OnDisconnect 1]; []] fresh)) = StillWaiting.
Proof. reflexivity. Qed.

(** *** Quality of service *)

(** C2, as stated, fails: the clearing publish of the stale check goes
    out at QoS 0. *)
Lemma clearing_publish_has_qos_0 :
  snd (step fresh (StaleCheck 601 601)) =
    [Publish SatCom_from_plane None 0 true; LogWarn (ClearSatComQueue 601)] /\
  ~ Forall (fun a => qos_of a = None \/ qos_of a = Some 2%Z)
           (snd (step fresh (StaleCheck 601 601))).
Proof.
  split; [reflexivity|].
  intros H. inversion H as [|? ? [Hq|Hq] _]; discriminate Hq.
Qed.

Lemma step_qos s e : Forall qos_as_coded (snd (step s e)).
Proof.
  destruct e; simpl.
  - unfold on_connect. destruct (_ =? 0)%Z; [|destruct (_ =? 3)%Z];
      simpl; repeat constructor.
  - repeat constructor.
  - repeat constructor.
  - repeat constructor.
  - repeat constructor.
  - repeat constructor.
  - repeat constructor.
  - unfold on_receive_timeout. destruct (_ && _); simpl; repeat constructor.
Qed.

(** C2, amended. Every subscription and every publish of a relayed
    payload uses QoS 2; the retained null publish that clears the SatCom
    topic uses QoS 0. *)
Theorem qos_of_every_subscribe_and_publish (s : MqttInterface) (evs : list event) :
  Forall qos_as_coded (snd (run s evs)).
Proof.
  revert s. induction evs as [|e evs IH]; intros s; simpl; [constructor|].
  pose proof (step_qos s e) as H1.
  destruct (step s e) as [s1 o1]. specialize (IH s1).
  destruct (run s1 evs) as [s2 o2]. simpl in *.
  apply Forall_app; auto.
Qed.

(** *** The stale-queue flag *)

Lemma step_cleared s e :
  iridium_queue_cleared (fst (step s e)) =
  if is_publish_satcom e then false
  else if is_expired_check s e then true
  else iridium_queue_cleared s.
Proof.
  destruct e; simpl; try reflexivity.
  - unfold on_connect. destruct (_ =? 0)%Z; [|destruct (_ =? 3)%Z]; reflexivity.
  - unfold on_receive_timeout.
    destruct (_ <? _)%Z; simpl; [|reflexivity].
    destruct (iridium_queue_cleared s) eqn:E; simpl; congruence.
Qed.

Lemma step_clearing_count s e :
  count is_clearing (snd (step s e)) =
  if is_expired_check s e && negb (iridium_queue_cleared s) then 1%nat else 0%nat.
Proof.
  destruct e; simpl; try reflexivity.
  - unfold on_connect. destruct (_ =? 0)%Z; [|destruct (_ =? 3)%Z]; reflexivity.
  - unfold on_receive_timeout. destruct (_ && _); reflexivity.
Qed.

Lemma step_silence_parameters s e :
  is_publish_satcom e = false ->
  iridium_timeout (fst (step s e)) = iridium_timeout s /\
  last_message_received (fst (step s e)) = last_message_received s.
Proof.
  intros He. destruct e; simpl in *; try discriminate; try (split; reflexivity).
  - unfold on_connect. destruct (_ =? 0)%Z; [|destruct (_ =? 3)%Z];
      split; reflexivity.
  - unfold on_receive_timeout. destruct (_ && _); split; reflexivity.
Qed.

Lemma is_expired_check_ext s1 s2 e :
  iridium_timeout s1 = iridium_timeout s2 ->
  last_message_received s1 = last_message_received s2 ->
  is_expired_check s1 e = is_expired_check s2 e.
Proof. intros Ht Hl. destruct e; simpl; try reflexivity. now rewrite Ht, Hl. Qed.

Lemma count_none {A} (p : A -> bool) (l : list A) :
  Forall (fun a => p a = false) l -> count p l = 0%nat.
Proof.
  induction 1 as [|a l Ha _ IH]; simpl; [reflexivity|]. now rewrite Ha, IH.
Qed.

(** Between two clearing publishes lies a relayed SatCom message. *)
Lemma run_clearing_bound evs : forall s,
  (count is_clearing (snd (run s evs))
   <= count is_publish_satcom evs
      + (if iridium_queue_cleared s then 0 else 1))%nat.
Proof.
  induction evs as [|e evs IH]; intros s; simpl; [lia|].
  pose proof (step_cleared s e) as Hc.
  pose proof (step_clearing_count s e) as Hn.
  destruct (step s e) as [s1 o1]. simpl in Hc, Hn.
  specialize (IH s1). destruct (run s1 evs) as [s2 o2]. simpl in *.
  rewrite count_app, Hn. rewrite Hc in IH.
  destruct (is_publish_satcom e) eqn:Hsat.
  - assert (is_expired_check s e = false) as -> by (destruct e; try discriminate; reflexivity).
    simpl. destruct (iridium_queue_cleared s); lia.
  - destruct (is_expired_check s e), (iridium_queue_cleared s); simpl in *; lia.
Qed.

(** Without a relayed SatCom message and without an expired check,
    nothing of the stale-queue state moves and nothing is cleared. *)
Lemma run_quiet evs : forall s,
  Forall (fun e => is_publish_satcom e = false) evs ->
  Forall (fun e => is_expired_check s e = false) evs ->
  iridium_queue_cleared (fst (run s evs)) = iridium_queue_cleared s /\
  iridium_timeout (fst (run s evs)) = iridium_timeout s /\
  last_message_received (fst (run s evs)) = last_message_received s /\
  count is_clearing (snd (run s evs)) = 0%nat.
Proof.
  induction evs as [|e evs IH]; intros s Hsat Hexp; simpl; [auto|].
  inversion Hsat as [|? ? Hs1 Hs2]; inversion Hexp as [|? ? He1 He2]; subst.
  pose proof (step_cleared s e) as Hc.
  pose proof (step_clearing_count s e) as Hn.
  destruct (step_silence_parameters s e Hs1) as [Ht Hl].
  rewrite Hs1, He1 in Hc. rewrite He1 in Hn. simpl in Hn.
  destruct (step s e) as [s1 o1]. simpl in *.
  assert (He2' : Forall (fun e => is_expired_check s1 e = false) evs).
  { eapply Forall_impl; [exact He2|]. intros e' He'. simpl in He'.
    rewrite <- He'. now apply is_expired_check_ext. }
  destruct (IH s1 Hs2 He2') as (H1 & H2 & H3 & H4).
  destruct (run s1 evs) as [s2 o2]. simpl in *.
  rewrite count_app, Hn, H4. repeat split; congruence.
Qed.

(** C3. The flag [__iridium_queue_cleared] is set to false exactly by
    [publish_satcom_message]; it becomes true only when the stale check
    finds the silence longer than the Iridium timeout; a step emits the
    clearing publish exactly when it raises the flag, so over a period
    without relayed SatCom messages at most one clearing publish occurs,
    and in general there are never more clearing publishes than relayed
    SatCom messages plus one. *)
Theorem queue_cleared_discipline
    (s : MqttInterface) (e : event) (evs : list event) :
  (forall data now,
     iridium_queue_cleared (fst (publish_satcom_message data now s)) = false) /\
  (iridium_queue_cleared s = true ->
   iridium_queue_cleared (fst (step s e)) = false ->
   is_publish_satcom e = true) /\
  (iridium_queue_cleared s = false ->
   iridium_queue_cleared (fst (step s e)) = true ->
   is_expired_check s e = true) /\
  count is_clearing (snd (step s e)) =
    (if negb (iridium_queue_cleared s) && iridium_queue_cleared (fst (step s e))
     then 1 else 0)%nat /\
  (Forall (fun e' => is_publish_satcom e' = false) evs ->
   (count is_clearing (snd (run s evs)) <= 1)%nat) /\
  (count is_clearing (snd (run s evs)) <= count is_publish_satcom evs + 1)%nat.
Proof.
  pose proof (step_cleared s e) as Hc.
  pose proof (step_clearing_count s e) as Hn.
  pose proof (run_clearing_bound evs s) as Hb.
  split; [|split; [|split; [|split; [|split]]]].
  - intros data now. reflexivity.
  - intros H1 H2. rewrite H1, H2 in Hc.
    destruct (is_publish_satcom e); [reflexivity|].
    destruct (is_expired_check s e); discriminate.
  - intros H1 H2. rewrite H1, H2 in Hc.
    destruct (is_publish_satcom e); [discriminate|].
    destruct (is_expired_check s e); [reflexivity|discriminate].
  - rewrite Hn, Hc.
    destruct (is_publish_satcom e) eqn:Hsat.
    + assert (is_expired_check s e = false) as ->
        by (destruct e; try discriminate; reflexivity).
      destruct (iridium_queue_cleared s); reflexivity.
    + destruct (is_expired_check s e), (iridium_queue_cleared s); reflexivity.
  - intros Hsat. rewrite (count_none _ _ Hsat) in Hb.
    destruct (iridium_queue_cleared s); lia.
  - destruct (iridium_queue_cleared s); lia.
Qed.

Lemma queue_cleared_discipline_witness :
  iridium_queue_cleared (fst (publish_satcom_message "hi" 700
       (fst (step fresh (StaleCheck 601 601))))) = false /\
  is_expired_check fresh (StaleCheck 601 601) = true /\
  is_publish_satcom (PublishSatcom "hi" 700) = true /\
  (count is_clearing (snd (run fresh [StaleCheck 601 601; StaleCheck 604 604;
                                      PublishLte "x"; StaleCheck 606 606])) <= 1)%nat.
Proof.
  pose proof (queue_cleared_discipline fresh (StaleCheck 601 601)
                [StaleCheck 601 601; StaleCheck 604 604;
                 PublishLte "x"; StaleCheck 606 606])
    as (_ & _ & Hup & _ & Hone & _).
  pose proof (queue_cleared_discipline (fst (step fresh (StaleCheck 601 601)))
                (PublishSatcom "hi" 700) [])
    as (Hreset & Hdown & _).
  split; [apply Hreset|].
  split; [apply Hup; reflexivity|].
  split; [apply Hdown; reflexivity|].
  apply Hone. repeat constructor.
Defined.

Example clear_once_then_again :
  map (fun a => is_clearing a)
      (snd (run fresh [StaleCheck 601 601; StaleCheck 604 604;
                       PublishSatcom "hi" 700; StaleCheck 1000 1000;
                       StaleCheck 1301 1301; StaleCheck 1304 1304])) =
  [true; false; false; false; true; false].
Proof. reflexivity. Qed.

(** C10. The constructor stores its own clock reading as the time of the
    last SatCom message. An interface that has relayed no SatCom message
    therefore clears the retained topic at the first stale check that
    finds the timeout elapsed since construction, and, as long as no
    SatCom message is relayed, that publish is the only one. *)
Theorem fresh_interface_clears_once
    (ip user pwd : string) (port tmo t0 now now_log : Z)
    (before after : list event) :
  Forall (fun e => is_publish_satcom e = false) before ->
  Forall (fun e => is_expired_check (init ip port user pwd tmo t0) e = false) before ->
  (tmo < now - t0)%Z ->
  Forall (fun e => is_publish_satcom e = false) after ->
  snd (step (fst (run (init ip port user pwd tmo t0) before)) (StaleCheck now now_log)) =
    [Publish SatCom_from_plane None 0 true;
     LogWarn (ClearSatComQueue (now_log - t0))] /\
  count is_clearing
    (snd (run (init ip port user pwd tmo t0)
              (before ++ StaleCheck now now_log :: after))) = 1%nat.
Proof.
  intros Hsat Hexp Hlt Hafter.
  destruct (run_quiet before _ Hsat Hexp) as (Hc & Ht & Hl & Hn).
  simpl in Hc, Ht, Hl.
  assert (Hstep : step (fst (run (init ip port user pwd tmo t0) before))
                       (StaleCheck now now_log) =
                  (set_queue_cleared true (fst (run (init ip port user pwd tmo t0) before)),
                   [Publish SatCom_from_plane None 0 true;
                    LogWarn (ClearSatComQueue (now_log - t0))])).
  { simpl. unfold on_receive_timeout. rewrite Ht, Hl, Hc.
    apply Z.ltb_lt in Hlt. rewrite Hlt. reflexivity. }
  split; [now rewrite Hstep|].
  rewrite mqtt_run_app.
  destruct (run (init ip port user pwd tmo t0) before) as [s1 o1].
  cbn [fst snd] in Hstep, Hn. cbn [run]. rewrite Hstep.
  pose proof (run_clearing_bound after (set_queue_cleared true s1)) as Hb.
  rewrite (count_none _ _ Hafter) in Hb. simpl in Hb.
  destruct (run (set_queue_cleared true s1) after) as [s2 o2]. simpl in *.
  rewrite count_app, Hn. simpl. lia.
Qed.

Lemma fresh_interface_clears_once_witness :
  snd (step (fst (run (init "broker" 1883 "user" "pwd" 600 0)
                      [OnConnect 0; StaleCheck 300 300; PublishLte "x"]))
            (StaleCheck 601 601)) =
    [Publish SatCom_from_plane None 0 true;
     LogWarn (ClearSatComQueue (601 - 0))] /\
  count is_clearing
    (snd (run (init "broker" 1883 "user" "pwd" 600 0)
              ([OnConnect 0; StaleCheck 300 300; PublishLte "x"]
               ++ StaleCheck 601 601 :: [StaleCheck 604 604; PublishLte "y"]))) = 1%nat.
Proof.
  apply (fresh_interface_clears_once "broker" "user" "pwd" 1883 600 0 601 601
           [OnConnect 0; StaleCheck 300 300; PublishLte "x"]
           [StaleCheck 604 604; PublishLte "y"]).
  - repeat constructor.
  - repeat constructor.
  - lia.
  - repeat constructor.
Defined.

End MqttProofs.


(** ** IridiumInterface *)

Module IridiumProofs.
Import Iridium.

Section Outbound.

Variable urlencode : gmap string string -> string.


(** *** Pending confirmations *)

Lemma post_message_lookup data idx s k :
  waiting_for_confirm (fst (post_message urlencode data idx s)) !! k =
  if decide (next_request s = k) then Some (idx, data)
  else waiting_for_confirm s !! k.
Proof. simpl. apply lookup_insert. Qed.

Lemma on_message_sent_ok response is_alive s idx data :
  waiting_for_confirm s !! req_id (request response) = Some (idx, data) ->
  exists s' o,
    on_message_sent response is_alive s = Ok (s', o) /\
    waiting_for_confirm s' = delete (req_id (request response)) (waiting_for_confirm s) /\
    next_request s' = next_request s.
Proof.
  intros Hk. unfold on_message_sent. rewrite Hk.
  destruct (error response); eexists _, _; repeat split.
Qed.

Lemma on_message_sent_inv response is_alive s s' o :
  on_message_sent response is_alive s = Ok (s', o) ->
  waiting_for_confirm s' = delete (req_id (request response)) (waiting_for_confirm s) /\
  next_request s' = next_request s.
Proof.
  unfold on_message_sent.
  destruct (waiting_for_confirm s !! req_id (request response)) as [[idx data]|];
    [|discriminate].
  destruct (error response); intros [= <- _]; split; reflexivity.
Qed.

Lemma step_next s e s' o :
  step urlencode s e = Ok (s', o) -> (next_request s <= next_request s')%nat.
Proof.
  destruct e as [data idx|response is_alive|thr]; simpl.
  - intros [= <- _]. simpl. lia.
  - intros H. apply on_message_sent_inv in H as [_ ->]. lia.
  - unfold Iridium.thread_run, repost_message. simpl. intros [= <- _]. simpl. lia.
Qed.

(** A step changes the entry of an allocated key only by removing it,
    and only when it handles the response to that very request. *)
Lemma step_lookup s e s' o k :
  step urlencode s e = Ok (s', o) -> (k < next_request s)%nat ->
  waiting_for_confirm s' !! k =
  if is_response_for k e then None else waiting_for_confirm s !! k.
Proof.
  destruct e as [data idx|response is_alive|thr]; simpl.
  - intros [= <- _] Hk. simpl. apply lookup_insert_ne. lia.
  - intros H _. apply on_message_sent_inv in H as [-> _].
    destruct (Nat.eqb_spec (req_id (request response)) k) as [->|Hne].
    + apply lookup_delete_eq.
    + now apply lookup_delete_ne.
  - unfold Iridium.thread_run, repost_message. simpl.
    intros [= <- _] Hk. simpl. apply lookup_insert_ne. lia.
Qed.

Lemma step_keys_allocated s e s' o :
  step urlencode s e = Ok (s', o) -> keys_allocated s -> keys_allocated s'.
Proof.
  intros Hstep Hs k Hk.
  pose proof (step_next _ _ _ _ Hstep) as Hn.
  destruct (Nat.lt_ge_cases k (next_request s)) as [Hlt|Hge]; [lia|].
  destruct e as [data idx|response is_alive|thr]; simpl in Hstep.
  - injection Hstep as <- _. simpl in *.
    destruct (decide (next_request s = k)) as [<-|Hne]; [lia|].
    rewrite lookup_insert_ne in Hk by exact Hne. apply Hs in Hk. lia.
  - apply on_message_sent_inv in Hstep as [Hw _]. rewrite Hw in Hk.
    destruct (decide (req_id (request response) = k)) as [<-|Hne].
    + rewrite lookup_delete_eq in Hk. destruct Hk as [? [=]].
    + rewrite lookup_delete_ne in Hk by exact Hne. apply Hs in Hk. lia.
  - unfold Iridium.thread_run, repost_message in Hstep. simpl in Hstep.
    injection Hstep as <- _. simpl in *.
    destruct (decide (next_request s = k)) as [<-|Hne]; [lia|].
    rewrite lookup_insert_ne in Hk by exact Hne. apply Hs in Hk. lia.
Qed.

Lemma run_keys_allocated evs : forall s s',
  run urlencode s evs = Ok s' -> keys_allocated s -> keys_allocated s'.
Proof.
  induction evs as [|e evs IH]; intros s s'; simpl.
  - intros [= <-]. trivial.
  - destruct (step urlencode s e) as [[s1 o1]|x] eqn:Hstep; [|discriminate].
    intros Hrun Hs. eapply IH; [exact Hrun|].
    eapply step_keys_allocated; eassumption.
Qed.

Lemma init_keys_allocated u p creds : keys_allocated (init u p creds).
Proof. intros k [v Hk]. simpl in Hk. rewrite lookup_empty in Hk. discriminate. Qed.

(** No event other than the response to request [k] touches entry [k]. *)
Lemma run_keeps evs k : forall s s',
  run urlencode s evs = Ok s' -> (k < next_request s)%nat ->
  Forall (fun e => is_response_for k e = false) evs ->
  waiting_for_confirm s' !! k = waiting_for_confirm s !! k /\
  (k < next_request s')%nat.
Proof.
  induction evs as [|e evs IH]; intros s s'; simpl.
  - intros [= <-]. auto.
  - destruct (step urlencode s e) as [[s1 o1]|x] eqn:Hstep; [|discriminate].
    intros Hrun Hk Hev. inversion Hev as [|? ? He Hevs]; subst.
    pose proof (step_next _ _ _ _ Hstep) as Hn.
    pose proof (step_lookup _ _ _ _ k Hstep Hk) as Hl. rewrite He in Hl.
    destruct (IH s1 s' Hrun ltac:(lia) Hevs) as [H1 H2].
    split; [congruence|exact H2].
Qed.

(** An identity that is allocated and not pending never becomes pending
    again. *)
Lemma run_gone evs k : forall s s',
  run urlencode s evs = Ok s' -> (k < next_request s)%nat ->
  waiting_for_confirm s !! k = None ->
  waiting_for_confirm s' !! k = None.
Proof.
  induction evs as [|e evs IH]; intros s s'; simpl.
  - intros [= <-]. auto.
  - destruct (step urlencode s e) as [[s1 o1]|x] eqn:Hstep; [|discriminate].
    intros Hrun Hk Hnone.
    pose proof (step_next _ _ _ _ Hstep) as Hn.
    pose proof (step_lookup _ _ _ _ k Hstep Hk) as Hl.
    apply (IH s1 s' Hrun); [lia|].
    rewrite Hl. destruct (is_response_for k e); [reflexivity|exact Hnone].
Qed.

(** C5. The key under which [post_message] files a delivery is new; it
    stays in [__waiting_for_confirm] through every event that is not the
    response to that request, responses to other requests included; the
    response handler invoked for that request removes it and nothing
    else, whether the response reports an error or not; once removed it
    is never pending again, so no second removal can happen. *)
Theorem pending_key_removed_once_by_own_response
    (u : string) (p : Z) (creds : gmap string string) (evs0 : list event)
    (s : IridiumInterface) (data : bytes) (idx : Z) :
  run urlencode (init u p creds) evs0 = Ok s ->
  (waiting_for_confirm s !! next_request s = None /\
   waiting_for_confirm (fst (post_message urlencode data idx s)) !! next_request s
     = Some (idx, data)) /\
  (forall evs s2,
     Forall (fun e => is_response_for (next_request s) e = false) evs ->
     run urlencode (fst (post_message urlencode data idx s)) evs = Ok s2 ->
     waiting_for_confirm s2 !! next_request s = Some (idx, data) /\
     forall response is_alive,
       req_id (request response) = next_request s ->
       exists s3 o,
         on_message_sent response is_alive s2 = Ok (s3, o) /\
         waiting_for_confirm s3 = delete (next_request s) (waiting_for_confirm s2) /\
         forall evs' s4,
           run urlencode s3 evs' = Ok s4 ->
           waiting_for_confirm s4 !! next_request s = None /\
           forall response' is_alive',
             req_id (request response') = next_request s ->
             on_message_sent response' is_alive' s4 = Raise KeyError).
Proof.
  intros Hreach.
  pose proof (run_keys_allocated _ _ _ Hreach (init_keys_allocated u p creds)) as Hs.
  assert (Hfresh : waiting_for_confirm s !! next_request s = None).
  { destruct (waiting_for_confirm s !! next_request s) eqn:E; [|reflexivity].
    assert (is_Some (waiting_for_confirm s !! next_request s)) as Hk by (rewrite E; eauto).
    apply Hs in Hk. lia. }
  assert (Hin : waiting_for_confirm (fst (post_message urlencode data idx s)) !! next_request s
                = Some (idx, data)).
  { rewrite post_message_lookup. now rewrite decide_True. }
  split; [split; assumption|].
  intros evs s2 Hev Hrun.
  destruct (run_keeps evs (next_request s) _ _ Hrun ltac:(simpl; lia) Hev) as [Hkeep Hlt].
  rewrite Hin in Hkeep. split; [exact Hkeep|].
  intros response is_alive Hid.
  rewrite <- Hid in Hkeep.
  destruct (on_message_sent_ok response is_alive s2 idx data Hkeep) as (s3 & o & Hok & Hw & Hn).
  rewrite Hid in Hw.
  exists s3, o. split; [exact Hok|]. split; [exact Hw|].
  intros evs' s4 Hrun'.
  assert (Hgone : waiting_for_confirm s4 !! next_request s = None).
  { apply (run_gone evs' (next_request s) s3 s4 Hrun'); [lia|].
    rewrite Hw. apply lookup_delete_eq. }
  split; [exact Hgone|].
  intros response' is_alive' Hid'. unfold on_message_sent.
  now rewrite Hid', Hgone.
Qed.

(** *** Retries *)

Lemma drive_step fuel is_alive e q s s1 o1 :
  step urlencode s e = Ok (s1, o1) ->
  drive urlencode (S fuel) is_alive (e :: q) s =
  (fst (drive urlencode fuel is_alive (q ++ flat_map (failing_endpoint is_alive) o1) s1),
   o1 ++ snd (drive urlencode fuel is_alive (q ++ flat_map (failing_endpoint is_alive) o1) s1)).
Proof.
  intros H. cbn [Iridium.drive]. rewrite H.
  destruct (Iridium.drive _ _ _ _ _). reflexivity.
Qed.

(** One round against the failing endpoint: the error response starts a
    thread, the thread sleeps and posts the same message again. *)
Lemma failing_round fuel is_alive response s idx data err :
  waiting_for_confirm s !! req_id (request response) = Some (idx, data) ->
  error response = Some err ->
  exists s2 thr req,
    thr_args thr = (data, idx) /\
    req_body req = urlencode (<["data" := hex_encode data]> (post_data s)) /\
    waiting_for_confirm s2 !! req_id req = Some (idx, data) /\
    post_data s2 = <["data" := hex_encode data]> (post_data s) /\
    drive urlencode (S (S fuel)) is_alive [Response response is_alive] s =
      (fst (drive urlencode fuel is_alive
              [Response {| request := req; error := Some "HTTP 599" |} is_alive] s2),
       [LogWarn (ErrorSending err); ThreadStart thr;
        Sleep repost_delay; LogWarn (SendingMT idx); Fetch req]
       ++ snd (drive urlencode fuel is_alive
                 [Response {| request := req; error := Some "HTTP 599" |} is_alive] s2)).
Proof.
  intros Hk Herr.
  assert (Hsent : exists s1 thr,
             step urlencode s (Response response is_alive) =
               Ok (s1, [LogWarn (ErrorSending err); ThreadStart thr]) /\
             thr_args thr = (data, idx) /\ post_data s1 = post_data s).
  { cbn [Iridium.step]. unfold on_message_sent. rewrite Hk, Herr.
    eexists _, _. split; [reflexivity|]. split; reflexivity. }
  destruct Hsent as (s1 & thr & Hstep1 & Hargs & Hpd).
  exists (fst (post_message urlencode data idx s1)), thr,
    {| req_id := next_request s1; req_url := url s1; req_method := "POST";
       req_body := urlencode (<["data" := hex_encode data]> (post_data s1)) |}.
  split; [exact Hargs|]. split; [cbn; now rewrite Hpd|].
  split; [cbn; apply lookup_insert_eq|]. split; [cbn; now rewrite Hpd|].
  rewrite (drive_step _ _ _ _ _ _ _ Hstep1).
  cbn [app flat_map failing_endpoint].
  assert (Hstep2 : step urlencode s1 (ThreadRun thr) =
                   Ok (fst (post_message urlencode data idx s1),
                       [Sleep repost_delay; LogWarn (SendingMT idx);
                        Fetch {| req_id := next_request s1; req_url := url s1;
                                 req_method := "POST";
                                 req_body := urlencode
                                   (<["data" := hex_encode data]> (post_data s1)) |}])).
  { cbn [Iridium.step]. unfold Iridium.thread_run. rewrite Hargs. reflexivity. }
  rewrite (drive_step _ _ _ _ _ _ _ Hstep2).
  cbn [app flat_map failing_endpoint fst snd]. reflexivity.
Qed.

Lemma sustained_failure n : forall is_alive response s idx data err,
  waiting_for_confirm s !! req_id (request response) = Some (idx, data) ->
  error response = Some err ->
  let tr := snd (drive urlencode (2 * n) is_alive [Response response is_alive] s) in
  started_args tr = repeat (data, idx) n /\
  slept tr = repeat repost_delay n /\
  sent_indices tr = repeat idx n /\
  fetched_bodies tr =
    repeat (urlencode (<["data" := hex_encode data]> (post_data s))) n.
Proof.
  induction n as [|n IH]; intros is_alive response s idx data err Hk Herr.
  - simpl. auto.
  - replace (2 * S n)%nat with (S (S (2 * n))) by lia.
    destruct (failing_round (2 * n) is_alive response s idx data err Hk Herr)
      as (s2 & thr & req & Hargs & Hbody & Hk2 & Hpd & Hdrive).
    cbv zeta. rewrite Hdrive. cbn [snd].
    specialize (IH is_alive {| request := req; error := Some "HTTP 599" |}
                  s2 idx data "HTTP 599" Hk2 eq_refl).
    cbv zeta in IH. destruct IH as (I1 & I2 & I3 & I4).
    rewrite Hpd, insert_insert_eq in I4.
    unfold started_args, slept, sent_indices, fetched_bodies in *.
    rewrite !flat_map_app, I1, I2, I3, I4.
    cbn [flat_map app repeat]. rewrite Hargs, Hbody. auto.
Qed.

(** C6. When the response to an outbound delivery reports an error, the
    handler starts a thread whose body sleeps the fixed 10 seconds and
    then calls [post_message] with the payload and the sequence index of
    the failed delivery. Against an endpoint that fails every delivery
    this goes on for as many rounds as one cares to observe: the [n]
    retries of the first [n] rounds all carry that same pair. *)
Theorem failed_delivery_is_retried_unboundedly
    (s : IridiumInterface) (response : HTTPResponse) (is_alive : nat -> bool)
    (idx : Z) (data : bytes) (err : string) (n : nat) :
  waiting_for_confirm s !! req_id (request response) = Some (idx, data) ->
  error response = Some err ->
  (exists s' thr,
     on_message_sent response is_alive s =
       Ok (s', [LogWarn (ErrorSending err); ThreadStart thr]) /\
     thr_args thr = (data, idx) /\
     thread_run urlencode thr s' =
       (fst (post_message urlencode data idx s'), Sleep 10 :: snd (post_message urlencode data idx s'))) /\
  started_args (snd (drive urlencode (2 * n) is_alive [Response response is_alive] s))
    = repeat (data, idx) n /\
  slept (snd (drive urlencode (2 * n) is_alive [Response response is_alive] s))
    = repeat 10%Z n /\
  sent_indices (snd (drive urlencode (2 * n) is_alive [Response response is_alive] s))
    = repeat idx n /\
  fetched_bodies (snd (drive urlencode (2 * n) is_alive [Response response is_alive] s))
    = repeat (urlencode (<["data" := hex_encode data]> (post_data s))) n.
Proof.
  intros Hk Herr. split.
  - unfold on_message_sent. rewrite Hk, Herr. eexists _, _.
    split; [reflexivity|]. split; reflexivity.
  - exact (sustained_failure n is_alive response s idx data err Hk Herr).
Qed.

End Outbound.

(** The pruning loop skips the element that follows a removed one: of
    three finished threads the middle one stays in the list. *)
Example prune_skips_after_removal :
  prune (fun _ => false)
        [mkThread 0 ("a", 1%Z) true; mkThread 1 ("b", 2%Z) true;
         mkThread 2 ("c", 3%Z) true] =
  [mkThread 1 ("b", 2%Z) true].
Proof. reflexivity. Qed.

Lemma pending_key_removed_once_by_own_response_witness :
  waiting_for_confirm one_in_flight !! next_request one_in_flight = None /\
  waiting_for_confirm
    (fst (post_message urlencode_example "cmd2" 2 one_in_flight))
    !! next_request one_in_flight = Some (2%Z, "cmd2").
Proof.
  apply (pending_key_removed_once_by_own_response urlencode_example
           "https://provider/MT" 8080 (<["imei" := "300234"]> ∅)
           [PostMessage "cmd1" 1] one_in_flight "cmd2" 2).
  reflexivity.
Defined.

Example two_in_flight_first_fails :
  match run urlencode_example one_in_flight
          [PostMessage "cmd2" 2; Response failure_of_first (fun _ => true)] with
  | Ok s => map_to_list (waiting_for_confirm s) = [(1%nat, (2%Z, "cmd2"))]
  | Raise _ => False
  end.
Proof. vm_compute. reflexivity. Qed.

Lemma failed_delivery_is_retried_unboundedly_witness :
  started_args (snd (drive urlencode_example 6 (fun _ => false)
                       [Response failure_of_first (fun _ => false)] one_in_flight))
    = [("cmd1", 1%Z); ("cmd1", 1%Z); ("cmd1", 1%Z)] /\
  slept (snd (drive urlencode_example 6 (fun _ => false)
                [Response failure_of_first (fun _ => false)] one_in_flight))
    = [10%Z; 10%Z; 10%Z].
Proof.
  destruct (failed_delivery_is_retried_unboundedly urlencode_example
              one_in_flight failure_of_first (fun _ => false) 1 "cmd1" "HTTP 599" 3)
    as (_ & Hargs & Hslept & _).
  - apply lookup_insert_eq.
  - reflexivity.
  - split; [exact Hargs|exact Hslept].
Defined.

(** *** The inbound endpoint *)

Section Inbound.

Context {St Out : Type}.
Variable cb : bytes -> St -> St * list Out.

Lemma post_rejects arguments st :
  (forall msg, decode_data arguments <> Ok msg) ->
  post cb arguments st =
    (st, [HLogWarn ReceivedMO; HLogWarn FailedDecode; SetStatus 400; Finish]).
Proof.
  intros H. unfold post. destruct (decode_data arguments) as [msg|x]; [|reflexivity].
  now destruct (H msg).
Qed.

Lemma post_accepts arguments st msg :
  decode_data arguments = Ok msg ->
  post cb arguments st =
    (fst (cb msg st), [HLogWarn ReceivedMO; Callback msg (snd (cb msg st)); Finish]).
Proof.
  intros H. unfold post. rewrite H. destruct (cb msg st); reflexivity.
Qed.

End Inbound.

End IridiumProofs.

(** ** The relay *)

Module RelayProofs.
Import Relay.

Example scenario_inbound_mo :
  snd (mo_post 100 (<["data" := ["6869"]]> ∅) example_relay) =
  [Iridium.HLogWarn Iridium.ReceivedMO;
   Iridium.Callback "hi"
     [Mqtt.Publish "telem/SatCom_from_plane" (Some "hi") 2 true;
      Mqtt.LogInfo (Mqtt.Published 1 "telem/SatCom_from_plane")];
   Iridium.Finish].
Proof. vm_compute. reflexivity. Qed.

Example scenario_outbound_mt :
  snd (Mqtt.callback_SatCom "telem/SatCom_to_plane" "cmd1" (mi example_relay)) =
    [Mqtt.LogInfo (Mqtt.ReceivedFrom "telem/SatCom_to_plane");
     Mqtt.SatcomOnMessageCallback "cmd1" 1] /\
  snd (satcom_on_message_callback Iridium.urlencode_example "cmd1" 1 example_relay) =
    [Iridium.LogWarn (Iridium.SendingMT 1);
     Iridium.Fetch
       {| Iridium.req_id := 0; Iridium.req_url := "https://provider/MT";
          Iridium.req_method := "POST";
          Iridium.req_body := "username=u&imei=300234&data=636d6431&password=p" |}].
Proof. split; vm_compute; reflexivity. Qed.

(** C7. An inbound MO POST whose [data] field does not hex-decode is
    answered with status 400, the message callback is not invoked and
    the relay state is what it was; one whose [data] field decodes is
    handed, decoded, to the callback ([publish_satcom_message] of the
    MQTT interface) and answered with the default status, 200. *)
Theorem malformed_mo_rejected_wellformed_relayed
    (now : Z) (arguments : gmap string (list string)) (v : string)
    (rest : list string) (r : Relay) :
  arguments !! "data" = Some (v :: rest) ->
  (hex_decode v = None ->
   fst (mo_post now arguments r) = r /\
   Iridium.status_sent (snd (mo_post now arguments r)) = Some 400%Z /\
   Iridium.callback_calls (snd (mo_post now arguments r)) = []) /\
  (forall msg,
     hex_decode v = Some msg ->
     fst (mo_post now arguments r) =
       {| mi := fst (Mqtt.publish_satcom_message msg now (mi r));
          li := li r; ii := ii r |} /\
     Iridium.status_sent (snd (mo_post now arguments r)) = Some 200%Z /\
     Iridium.callback_calls (snd (mo_post now arguments r)) = [msg]).
Proof.
  intros Hdata. split.
  - intros Hdec. unfold mo_post.
    rewrite IridiumProofs.post_rejects; [repeat split|].
    intros msg. unfold Iridium.decode_data. rewrite Hdata, Hdec. discriminate.
  - intros msg Hdec. unfold mo_post.
    rewrite (IridiumProofs.post_accepts _ _ _ msg).
    + repeat split.
    + unfold Iridium.decode_data. now rewrite Hdata, Hdec.
Qed.

Lemma malformed_mo_rejected_wellformed_relayed_witness :
  (fst (mo_post 100 (<["data" := ["68zz"]]> ∅) example_relay) = example_relay /\
   Iridium.status_sent (snd (mo_post 100 (<["data" := ["68zz"]]> ∅) example_relay))
     = Some 400%Z /\
   Iridium.callback_calls (snd (mo_post 100 (<["data" := ["68zz"]]> ∅) example_relay))
     = []) /\
  (Iridium.status_sent (snd (mo_post 100 (<["data" := ["6869"]]> ∅) example_relay))
     = Some 200%Z /\
   Iridium.callback_calls (snd (mo_post 100 (<["data" := ["6869"]]> ∅) example_relay))
     = ["hi"]).
Proof.
  split.
  - apply (malformed_mo_rejected_wellformed_relayed 100
             (<["data" := ["68zz"]]> ∅) "68zz" [] example_relay).
    + apply lookup_insert_eq.
    + reflexivity.
  - apply (malformed_mo_rejected_wellformed_relayed 100
             (<["data" := ["6869"]]> ∅) "6869" [] example_relay).
    + apply lookup_insert_eq.
    + reflexivity.
Defined.

End RelayProofs.


(* ====================================================================== *)
(** * Further properties of the adapters *)
(* ====================================================================== *)

(** ** LteInterface *)

Module LteExtra.
Import Lte.

(** X2. Every datagram whose handler returns is handed to the message
    callback exactly once, in arrival order, whatever liveness checks and
    sends are interleaved; the datagram on which the rate line raises is
    not handed over. *)
Theorem every_datagram_forwarded_once (s : LteInterface) (evs : list event) :
  callbacks (trace_of (run s evs)) = datagram_payloads (completed s evs) /\
  (is_returned (run s evs) = true -> completed s evs = evs).
Proof.
  revert s. induction evs as [|e evs IH]; intros s; simpl; [auto|].
  assert (H1 : forall s1 o1, step s e = Returned s1 o1 ->
               callbacks o1 = match e with Datagram d _ _ _ _ => [d] | _ => [] end).
  { intros s1 o1. destruct e; simpl.
    - unfold on_receive. destruct (_ =? 0)%Z; [destruct (_ =? 0)%Z|];
        intros [= _ <-]; reflexivity.
    - unfold on_receive_timeout. destruct (_ <? _)%Z; [destruct (truthy _)|];
        intros [= _ <-]; reflexivity.
    - unfold send. destruct (host_ip s); intros [= _ <-]; reflexivity. }
  assert (H2 : forall x s1 o1, step s e = Raised x s1 o1 -> o1 = []).
  { intros x s1 o1. destruct e; simpl; try discriminate.
    unfold on_receive. destruct (_ =? 0)%Z; [destruct (_ =? 0)%Z|];
      try discriminate. now intros [= _ _ <-]. }
  destruct (step s e) as [s1 o1|x s1 o1].
  - specialize (H1 s1 o1 eq_refl). destruct (IH s1) as [I1 I2].
    rewrite LteProofs.trace_of_after.
    unfold callbacks, datagram_payloads in *. cbn [flat_map].
    rewrite flat_map_app, H1, I1. split; [reflexivity|].
    intros Hr. f_equal. apply I2. destruct (run s1 evs); [reflexivity|discriminate].
  - rewrite (H2 x s1 o1 eq_refl). simpl. split; [reflexivity|discriminate].
Qed.

Example raising_datagram_not_forwarded :
  callbacks (trace_of (step after_999 dgram_same_tick)) = [] /\
  completed after_999 [dgram_same_tick; dgram 1] = [].
Proof. vm_compute. split; reflexivity. Qed.

(** X3. The warning about a silent peer is logged at most once per
    silence: there are never more warnings than datagrams, plus one if a
    peer was known to begin with. *)
Theorem silence_warned_once_per_peer (s : LteInterface) (evs : list event) :
  (Mqtt.count is_silence_warning (trace_of (run s evs))
   <= Mqtt.count is_datagram evs + (if truthy (host_ip s) then 1 else 0))%nat.
Proof.
  revert s. induction evs as [|e evs IH]; intros s; simpl; [lia|].
  assert (H1 : (Mqtt.count is_silence_warning (trace_of (step s e))
                + (if truthy (host_ip (state_of (step s e))) then 1 else 0)
                <= (if is_datagram e then 1 else 0)
                   + (if truthy (host_ip s) then 1 else 0))%nat).
  { destruct e; simpl.
    - unfold on_receive. destruct (_ =? 0)%Z; [destruct (_ =? 0)%Z|]; simpl;
        try (destruct (negb _)); destruct (truthy (host_ip s)); lia.
    - unfold on_receive_timeout. destruct (_ <? _)%Z; simpl; [|lia].
      destruct (truthy (host_ip s)) eqn:Ht; simpl; [lia|]. rewrite Ht. lia.
    - assert (Hs : send data s = (s, snd (send data s)))
        by (unfold send; destruct (host_ip s); reflexivity).
      assert (Hc : Mqtt.count is_silence_warning (snd (send data s)) = 0%nat)
        by (unfold send; destruct (host_ip s); reflexivity).
      rewrite Hc, Hs. cbn [fst]. lia. }
  destruct (step s e) as [s1 o1|x s1 o1]; simpl in H1.
  - specialize (IH s1). rewrite LteProofs.trace_of_after, MqttProofs.count_app. lia.
  - simpl. destruct (truthy (host_ip s1)); lia.
Qed.

Lemma step_message_counter s e :
  is_liveness_check e = false ->
  message_counter (state_of (step s e)) =
  (message_counter s + (if is_datagram e then 1 else 0))%Z.
Proof.
  intros He. destruct e; simpl in *; try discriminate.
  - unfold on_receive. destruct (_ =? 0)%Z; [destruct (_ =? 0)%Z|]; reflexivity.
  - unfold send. destruct (host_ip s); simpl; lia.
Qed.

(** X5. As long as no liveness check runs, the message counter is the
    number of datagrams handled, the one on which the rate line raises
    included: it is a running count, never reset by [on_receive] (also
    not at multiples of 1000) and untouched by sends. When no handler
    raises, that is the number of datagrams of the whole sequence. *)
Theorem message_counter_counts_datagrams (s : LteInterface) (evs : list event) :
  Forall (fun e => is_liveness_check e = false) evs ->
  message_counter (state_of (run s evs)) =
    (message_counter s + Z.of_nat (Mqtt.count is_datagram (handled s evs)))%Z /\
  (is_returned (run s evs) = true ->
   message_counter (state_of (run s evs)) =
     (message_counter s + Z.of_nat (Mqtt.count is_datagram evs))%Z).
Proof.
  revert s. induction evs as [|e evs IH]; intros s Hl; simpl; [split; intros; lia|].
  inversion Hl as [|? ? He Hrest]; subst.
  pose proof (step_message_counter s e He) as H1.
  destruct (step s e) as [s1 o1|x s1 o1]; simpl in H1.
  - destruct (IH s1 Hrest) as [I1 I2]. rewrite LteProofs.state_of_after.
    split.
    + rewrite I1, H1. simpl. destruct (is_datagram e); lia.
    + intros Hr. rewrite I2, H1.
      * destruct (is_datagram e); lia.
      * destruct (run s1 evs); [reflexivity|discriminate].
  - simpl. split; [|discriminate]. rewrite H1. destruct (is_datagram e); lia.
Qed.

Lemma message_counter_counts_datagrams_witness :
  message_counter (state_of (run (init 5000 30 0 0) [dgram 1; Send "x"; dgram 2])) =
    (message_counter (init 5000 30 0 0)
     + Z.of_nat (Mqtt.count is_datagram
                   (handled (init 5000 30 0 0) [dgram 1; Send "x"; dgram 2])))%Z /\
  (is_returned (run (init 5000 30 0 0) [dgram 1; Send "x"; dgram 2]) = true ->
   message_counter (state_of (run (init 5000 30 0 0) [dgram 1; Send "x"; dgram 2])) =
     (message_counter (init 5000 30 0 0)
      + Z.of_nat (Mqtt.count is_datagram [dgram 1; Send "x"; dgram 2]))%Z).
Proof.
  apply (message_counter_counts_datagrams (init 5000 30 0 0)
           [dgram 1; Send "x"; dgram 2]).
  repeat constructor.
Defined.

Example raising_datagram_is_counted :
  message_counter (state_of (run after_999 [dgram_same_tick; dgram 1])) = 1000%Z /\
  handled after_999 [dgram_same_tick; dgram 1] = [dgram_same_tick].
Proof. vm_compute. split; reflexivity. Qed.

End LteExtra.


(** ** MqttInterface *)

Module MqttExtra.
Import Mqtt.

(** X6. The publish counter counts the relayed publishes and only them (the
    clearing publish of the stale check is not counted), and the numbers
    logged for them are consecutive. *)
Theorem publish_counter_counts_relayed_publishes
    (s : MqttInterface) (evs : list event) :
  publish_counter (fst (run s evs)) =
    (publish_counter s + Z.of_nat (count is_relayed_publish evs))%Z /\
  published_numbers (snd (run s evs)) =
    zseq (publish_counter s) (count is_relayed_publish evs).
Proof.
  revert s. induction evs as [|e evs IH]; intros s; simpl; [split; [lia|reflexivity]|].
  assert (H1 : publish_counter (fst (step s e)) =
                 (publish_counter s + (if is_relayed_publish e then 1 else 0))%Z /\
               published_numbers (snd (step s e)) =
                 if is_relayed_publish e then [publish_counter s] else []).
  { destruct e; simpl.
    - unfold on_connect. destruct (_ =? 0)%Z; [|destruct (_ =? 3)%Z];
        simpl; split; (lia || reflexivity).
    - split; [lia|reflexivity].
    - split; [lia|reflexivity].
    - split; [lia|reflexivity].
    - split; [lia|reflexivity].
    - split; [lia|]. f_equal. lia.
    - split; [lia|]. f_equal. lia.
    - unfold on_receive_timeout. destruct (_ && _); simpl; split; (lia || reflexivity). }
  destruct H1 as [H1 H2]. destruct (step s e) as [s1 o1].
  destruct (IH s1) as [I1 I2]. destruct (run s1 evs) as [s2 o2]. simpl in *.
  unfold published_numbers in *. rewrite flat_map_app, H2, I1, I2, H1.
  destruct (is_relayed_publish e); simpl; split; try lia; try reflexivity.
  now rewrite Z.add_0_r.
Qed.

(** X7. The sequence indices handed to the SatCom callback are consecutive:
    the k-th message from the broker gets the counter's value plus k. *)
Theorem sequence_indices_consecutive (s : MqttInterface) (evs : list event) :
  sequence_indices (snd (run s evs)) =
  zseq (iridium_counter s + 1) (count is_satcom_callback evs).
Proof.
  revert s. induction evs as [|e evs IH]; intros s; simpl; [reflexivity|].
  assert (H1 : iridium_counter (fst (step s e)) =
                 (iridium_counter s + (if is_satcom_callback e then 1 else 0))%Z /\
               sequence_indices (snd (step s e)) =
                 if is_satcom_callback e then [(iridium_counter s + 1)%Z] else []).
  { destruct e; simpl; try (split; [lia|reflexivity]).
    - unfold on_connect. destruct (_ =? 0)%Z; [|destruct (_ =? 3)%Z];
        simpl; split; (lia || reflexivity).
    - unfold on_receive_timeout. destruct (_ && _); simpl; split; (lia || reflexivity). }
  destruct H1 as [H1 H2]. destruct (step s e) as [s1 o1].
  specialize (IH s1). destruct (run s1 evs) as [s2 o2]. simpl in *.
  unfold sequence_indices in *. rewrite flat_map_app, H2, IH, H1.
  destruct (is_satcom_callback e); simpl; [reflexivity|].
  now rewrite Z.add_0_r.
Qed.

(** X8. Whatever the interface does, what it publishes on the SatCom topic
    is retained and what it publishes on the LTE topic is not, and it
    publishes on no other topic. *)
Theorem retain_flag_follows_topic (s : MqttInterface) (evs : list event) :
  Forall retain_as_coded (snd (run s evs)).
Proof.
  revert s. induction evs as [|e evs IH]; intros s; simpl; [constructor|].
  assert (H1 : Forall retain_as_coded (snd (step s e))).
  { destruct e; simpl;
      try (unfold on_connect; destruct (_ =? 0)%Z; [|destruct (_ =? 3)%Z]; simpl);
      try (unfold on_receive_timeout; destruct (_ && _); simpl);
      repeat match goal with
             | |- Forall _ [] => constructor
             | |- Forall _ (_ :: _) => constructor
             | |- retain_as_coded _ =>
                 simpl; first [exact I | left; split; reflexivity
                              | right; split; reflexivity]
             end. }
  destruct (step s e) as [s1 o1]. specialize (IH s1).
  destruct (run s1 evs) as [s2 o2]. simpl in *. apply Forall_app; auto.
Qed.

(** X9. Both subscriptions are made anew at every successful connect, and
    only then. *)
Theorem subscriptions_renewed_on_every_connect
    (s : MqttInterface) (evs : list event) :
  count (is_subscribe_to LTE_to_plane) (snd (run s evs)) = count is_connect_success evs /\
  count (is_subscribe_to SatCom_to_plane) (snd (run s evs)) = count is_connect_success evs.
Proof.
  revert s. induction evs as [|e evs IH]; intros s; simpl; [split; reflexivity|].
  assert (H1 : count (is_subscribe_to LTE_to_plane) (snd (step s e)) =
                 (if is_connect_success e then 1 else 0)%nat /\
               count (is_subscribe_to SatCom_to_plane) (snd (step s e)) =
                 (if is_connect_success e then 1 else 0)%nat).
  { destruct e; simpl; try (split; reflexivity).
    - unfold on_connect. destruct (_ =? 0)%Z; [|destruct (_ =? 3)%Z];
        split; reflexivity.
    - unfold on_receive_timeout. destruct (_ && _); split; reflexivity. }
  destruct H1 as [H1 H2]. destruct (step s e) as [s1 o1].
  destruct (IH s1) as [I1 I2]. destruct (run s1 evs) as [s2 o2]. simpl in *.
  rewrite !MqttProofs.count_app, H1, H2, I1, I2. split; reflexivity.
Qed.

(** *** The wait loop *)

(** Once set, the connected flag stays set through every event but a
    disconnect. *)
Lemma run_stays_connected evs : forall s,
  Forall (fun e => is_disconnect e = false) evs ->
  client_connected_flag s = true ->
  client_connected_flag (fst (run s evs)) = true.
Proof.
  induction evs as [|e evs IH]; intros s Hev Hc; simpl; [exact Hc|].
  inversion Hev as [|? ? He Hrest]; subst.
  assert (H1 : client_connected_flag (fst (step s e)) = true).
  { destruct e; simpl in *; try exact Hc; try discriminate.
    - unfold on_connect. destruct (_ =? 0)%Z; [reflexivity|].
      destruct (_ =? 3)%Z; exact Hc.
    - unfold on_receive_timeout. destruct (_ && _); exact Hc. }
  destruct (step s e) as [s1 o1]. simpl in H1.
  specialize (IH s1 Hrest H1). destruct (run s1 evs) as [s2 o2]. exact IH.
Qed.

Lemma run_app_state s evs1 evs2 :
  fst (run s (evs1 ++ evs2)) = fst (run (fst (run s evs1)) evs2).
Proof.
  rewrite MqttProofs.mqtt_run_app. destruct (run s evs1) as [s1 o1]. simpl.
  destruct (run s1 evs2); reflexivity.
Qed.

(** X10. The wait loop of [__connect] ends with the connected flag set
    at the first poll that finds a successful connect delivered and not
    followed, within the same sleep, by a disconnect; what the network
    thread handled before, short of a successful connect, does not
    matter. *)
Theorem connect_wait_returns_on_success
    (s : MqttInterface) (polls1 polls2 : list (list event))
    (before after : list event) :
  waiting s ->
  Forall (Forall (fun e => is_connect_success e = false)) polls1 ->
  Forall (fun e => is_disconnect e = false) after ->
  fst (fst (connect_wait (polls1 ++ (before ++ OnConnect 0 :: after) :: polls2) s))
    = Connected /\
  client_connected_flag
    (snd (fst (connect_wait (polls1 ++ (before ++ OnConnect 0 :: after) :: polls2) s)))
    = true.
Proof.
  revert s. induction polls1 as [|p polls1 IH]; intros s [Hc Hb] Hp Hafter.
  - cbn [app connect_wait]. rewrite Hc, Hb. cbn [negb andb].
    pose proof (MqttProofs.run_polled_flag (before ++ OnConnect 0 :: after) s) as Hb1.
    assert (Hc1 : client_connected_flag
                    (fst (run s (before ++ OnConnect 0 :: after))) = true).
    { rewrite run_app_state.
      change (OnConnect 0 :: after) with ([OnConnect 0] ++ after).
      rewrite run_app_state.
      apply run_stays_connected; [exact Hafter|reflexivity]. }
    destruct (run s (before ++ OnConnect 0 :: after)) as [s1 o1]. simpl in Hb1, Hc1.
    assert (Hb2 : client_bad_connection_flag s1 = false) by congruence.
    destruct polls2 as [|q polls2]; cbn [connect_wait];
      rewrite Hc1, Hb2; cbn [negb andb fst snd]; auto.
  - inversion Hp as [|? ? Hp1 Hp2]; subst.
    cbn [app connect_wait]. rewrite Hc, Hb. cbn [negb andb].
    pose proof (MqttProofs.deliver_failures_waiting p s Hp1 (conj Hc Hb)) as Hw.
    destruct (run s p) as [s1 o1]. simpl in Hw.
    destruct (IH s1 Hw Hp2 Hafter) as [I1 I2].
    destruct (connect_wait (polls1 ++ (before ++ OnConnect 0 :: after) :: polls2) s1)
      as [[w s2] o2].
    simpl in *. auto.
Qed.

Lemma connect_wait_returns_on_success_witness :
  fst (fst (connect_wait
              ([[]; [OnConnect 3]; [OnConnect 5; OnDisconnect 5]]
               ++ ([OnConnect 5] ++ OnConnect 0 :: [OnMessage "t"]) :: [[]]) fresh))
    = Connected /\
  client_connected_flag
    (snd (fst (connect_wait
                 ([[]; [OnConnect 3]; [OnConnect 5; OnDisconnect 5]]
                  ++ ([OnConnect 5] ++ OnConnect 0 :: [OnMessage "t"]) :: [[]]) fresh)))
    = true.
Proof.
  apply (connect_wait_returns_on_success fresh
           [[]; [OnConnect 3]; [OnConnect 5; OnDisconnect 5]] [[]]
           [OnConnect 5] [OnMessage "t"]).
  - split; reflexivity.
  - repeat constructor.
  - repeat constructor.
Defined.

(** X11. The exit path of [__connect] is never taken: nothing that the
    network thread handles makes the wait loop of an interface whose
    bad-connection flag is unset end with [loop_stop()] and
    [sys.exit()]. *)
Theorem connect_wait_never_exits_process
    (s : MqttInterface) (polls : list (list event)) :
  client_bad_connection_flag s = false ->
  fst (fst (connect_wait polls s)) <> Exited /\
  Forall (fun a => a <> SysExit) (snd (connect_wait polls s)).
Proof.
  revert s. induction polls as [|p polls IH]; intros s Hb; cbn [connect_wait];
    rewrite Hb; destruct (client_connected_flag s) eqn:Hc; cbn [negb andb];
    try (split; [discriminate|constructor]).
  pose proof (MqttProofs.run_polled_flag p s) as D1.
  assert (Ho : Forall (fun a => a <> SysExit) (snd (run s p))).
  { clear. revert s. induction p as [|e p IHp]; intros s; simpl; [constructor|].
    assert (H1 : Forall (fun a => a <> SysExit) (snd (step s e))).
    { destruct e; simpl;
        try (unfold on_connect; destruct (_ =? 0)%Z; [|destruct (_ =? 3)%Z]; simpl);
        try (unfold on_receive_timeout; destruct (_ && _); simpl);
        repeat constructor; discriminate. }
    destruct (step s e) as [s1 o1]. specialize (IHp s1).
    destruct (run s1 p) as [s2 o2]. simpl in *. apply Forall_app; auto. }
  destruct (run s p) as [s1 o1]. simpl in D1, Ho.
  destruct (IH s1 ltac:(congruence)) as [I1 I2].
  destruct (connect_wait polls s1) as [[w s2] o2]. simpl in *.
  split; [exact I1|]. apply Forall_app; auto.
Qed.

Lemma connect_wait_never_exits_process_witness :
  fst (fst (connect_wait [[OnConnect 5]; [OnConnect 4; OnDisconnect 1]; [OnConnect 2]]
              fresh)) <> Exited /\
  Forall (fun a => a <> SysExit)
    (snd (connect_wait [[OnConnect 5]; [OnConnect 4; OnDisconnect 1]; [OnConnect 2]]
            fresh)).
Proof.
  apply (connect_wait_never_exits_process fresh
           [[OnConnect 5]; [OnConnect 4; OnDisconnect 1]; [OnConnect 2]]).
  reflexivity.
Defined.

(** *** Silence periods *)

(** X12. A relayed SatCom message re-arms the stale check: whatever the state
    before it, the first stale check that finds the timeout elapsed
    since that message clears the retained topic again. *)
Theorem silence_after_message_clears_again
    (s : MqttInterface) (data : bytes) (t now now_log : Z) (mid : list event) :
  Forall (fun e => is_publish_satcom e = false) mid ->
  Forall (fun e => is_expired_check (fst (publish_satcom_message data t s)) e = false) mid ->
  (iridium_timeout s < now - t)%Z ->
  snd (step (fst (run (fst (publish_satcom_message data t s)) mid))
            (StaleCheck now now_log)) =
  [Publish SatCom_from_plane None 0 true;
   LogWarn (ClearSatComQueue (now_log - t))].
Proof.
  intros Hsat Hexp Hlt.
  destruct (MqttProofs.run_quiet mid _ Hsat Hexp) as (Hc & Ht & Hl & _).
  simpl in Hc, Ht, Hl. simpl. unfold on_receive_timeout.
  rewrite Ht, Hl, Hc. apply Z.ltb_lt in Hlt. now rewrite Hlt.
Qed.

Lemma silence_after_message_clears_again_witness :
  snd (step (fst (run (fst (publish_satcom_message "hi" 700
                              (fst (step fresh (StaleCheck 601 601)))))
                      [StaleCheck 1000 1000; PublishLte "x"]))
            (StaleCheck 1301 1301)) =
  [Publish SatCom_from_plane None 0 true;
   LogWarn (ClearSatComQueue (1301 - 700))].
Proof.
  apply (silence_after_message_clears_again (fst (step fresh (StaleCheck 601 601)))
           "hi" 700 1301 1301 [StaleCheck 1000 1000; PublishLte "x"]).
  - repeat constructor.
  - repeat constructor.
  - simpl. lia.
Defined.

End MqttExtra.


(** ** IridiumInterface *)

Module IridiumExtra.
Import Iridium.

(** *** The bookkeeping list of retry threads *)

Lemma remove_thread_keeps thr l t :
  In t l -> thr_id t <> thr_id thr -> In t (remove_thread thr l).
Proof.
  induction l as [|a l IH]; simpl; [tauto|].
  intros [->|Hin] Hne.
  - destruct (Nat.eqb_spec (thr_id t) (thr_id thr)); [contradiction|]. now left.
  - destruct (Nat.eqb (thr_id a) (thr_id thr)); [exact Hin|]. right. auto.
Qed.

Lemma remove_thread_length thr l : (length (remove_thread thr l) <= length l)%nat.
Proof.
  induction l as [|a l IH]; simpl; [lia|].
  destruct (Nat.eqb (thr_id a) (thr_id thr)); simpl; lia.
Qed.

Lemma prune_from_keeps is_alive t fuel : forall i l,
  In t l -> is_alive (thr_id t) = true -> In t (prune_from fuel i is_alive l).
Proof.
  induction fuel as [|fuel IH]; intros i l Hin Ha; simpl; [exact Hin|].
  destruct (l !! i) as [thr|]; [|exact Hin].
  destruct (is_alive (thr_id thr)) eqn:Hthr; [now apply IH|].
  apply IH; [|exact Ha]. apply remove_thread_keeps; [exact Hin|]. congruence.
Qed.

Lemma prune_from_length is_alive fuel : forall i l,
  (length (prune_from fuel i is_alive l) <= length l)%nat.
Proof.
  induction fuel as [|fuel IH]; intros i l; simpl; [lia|].
  destruct (l !! i) as [thr|]; [|lia].
  destruct (is_alive (thr_id thr)); [apply IH|].
  etransitivity; [apply IH|apply remove_thread_length].
Qed.

(** X13. The clean-up of the response handler drops finished threads only:
    every thread of the bookkeeping list that is still alive stays in
    the list, the thread started for a retry is added to it, and the
    list grows by one entry at most. *)
Theorem live_threads_stay_tracked
    (response : HTTPResponse) (is_alive : nat -> bool)
    (s s' : IridiumInterface) (o : list action) (t : Thread) :
  on_message_sent response is_alive s = Ok (s', o) ->
  In t (threads s) -> is_alive (thr_id t) = true ->
  In t (threads s') /\
  (forall thr, In (ThreadStart thr) o -> In thr (threads s')) /\
  (length (threads s') <= length (threads s) + 1)%nat.
Proof.
  unfold on_message_sent.
  destruct (waiting_for_confirm s !! req_id (request response)) as [[idx data]|];
    [|discriminate].
  pose proof (prune_from_length is_alive (length (threads s)) 0 (threads s)) as Hlen.
  destruct (error response); intros [= <- <-] Hin Ha; simpl.
  - split; [|split].
    + apply in_or_app. left. now apply prune_from_keeps.
    + intros thr [H|[H|[]]]; [discriminate|]. injection H as <-.
      apply in_or_app. right. now left.
    + rewrite length_app. unfold prune. simpl. lia.
  - split; [|split].
    + now apply prune_from_keeps.
    + intros thr [].
    + unfold prune. lia.
Qed.

Lemma live_threads_stay_tracked_witness :
  In (mkThread 1 ("b", 2%Z) true)
     (threads (mkIridium "u" 80 (delete 0%nat (<[0%nat := (1%Z, "cmd1")]> ∅)) ∅
                 [mkThread 1 ("b", 2%Z) true; mkThread 7 ("cmd1", 1%Z) true] 1 8)).
Proof.
  refine (proj1 (live_threads_stay_tracked
           {| request := mkRequest 0 "u" "POST" "body"; error := Some "HTTP 599" |}
           (fun i => Nat.eqb i 1)
           (mkIridium "u" 80 (<[0%nat := (1%Z, "cmd1")]> ∅) ∅
              [mkThread 0 ("a", 1%Z) true; mkThread 1 ("b", 2%Z) true] 1 7)
           (mkIridium "u" 80 (delete 0%nat (<[0%nat := (1%Z, "cmd1")]> ∅)) ∅
              [mkThread 1 ("b", 2%Z) true; mkThread 7 ("cmd1", 1%Z) true] 1 8)
           [LogWarn (ErrorSending "HTTP 599"); ThreadStart (mkThread 7 ("cmd1", 1%Z) true)]
           (mkThread 1 ("b", 2%Z) true) _ _ _)).
  - reflexivity.
  - simpl. auto.
  - reflexivity.
Defined.

Section Outbound.

Variable urlencode : gmap string string -> string.

(** What one step does to the counters, the form and the traces. *)
Lemma step_facts s e s1 o1 :
  step urlencode s e = Ok (s1, o1) ->
  next_request s1 = (next_request s + (if is_post e then 1 else 0))%nat /\
  fetched_ids o1 = (if is_post e then [next_request s] else []) /\
  Mqtt.count is_thread_start o1 = (if is_error_response e then 1 else 0)%nat /\
  fetched_bodies o1 =
    map (fun d => urlencode (<["data" := hex_encode d]> (post_data s)))
        (posted_payloads [e]) /\
  (forall h, <["data" := h]> (post_data s1) = <["data" := h]> (post_data s)).
Proof.
  destruct e as [data idx|response is_alive|thr]; simpl.
  - intros [= <- <-]. simpl. repeat split; try lia.
    intros h. apply insert_insert_eq.
  - unfold on_message_sent.
    destruct (waiting_for_confirm s !! req_id (request response)) as [[idx data]|];
      [|discriminate].
    destruct (error response); intros [= <- <-]; simpl; repeat split; lia.
  - unfold thread_run, repost_message. simpl. intros [= <- <-]. simpl.
    repeat split; try lia. intros h. apply insert_insert_eq.
Qed.

Lemma step_size s e s1 o1 :
  keys_allocated s -> step urlencode s e = Ok (s1, o1) ->
  (size (waiting_for_confirm s1) + (if is_response e then 1 else 0) =
   size (waiting_for_confirm s) + (if is_post e then 1 else 0))%nat.
Proof.
  intros Hs.
  assert (Hfresh : waiting_for_confirm s !! next_request s = None).
  { destruct (waiting_for_confirm s !! next_request s) eqn:E; [|reflexivity].
    assert (is_Some (waiting_for_confirm s !! next_request s)) as Hk by (rewrite E; eauto).
    apply Hs in Hk. lia. }
  destruct e as [data idx|response is_alive|thr]; simpl.
  - intros [= <- _]. simpl. rewrite map_size_insert_None by exact Hfresh. lia.
  - intros H. pose proof H as H'. apply IridiumProofs.on_message_sent_inv in H' as [Hw _].
    rewrite Hw. unfold on_message_sent in H.
    destruct (waiting_for_confirm s !! req_id (request response)) as [v|] eqn:E;
      [|discriminate].
    rewrite <- (insert_id (waiting_for_confirm s) _ _ E) at 2.
    rewrite <- insert_delete_eq.
    rewrite map_size_insert_None by apply lookup_delete_eq. lia.
  - unfold thread_run, repost_message. simpl. intros [= <- _]. simpl.
    rewrite map_size_insert_None by exact Hfresh. lia.
Qed.

Lemma run_out_facts evs : forall s s' tr,
  keys_allocated s ->
  run_out urlencode s evs = Ok (s', tr) ->
  (size (waiting_for_confirm s') + Mqtt.count is_response evs =
   size (waiting_for_confirm s) + Mqtt.count is_post evs)%nat /\
  fetched_ids tr = seq (next_request s) (Mqtt.count is_post evs) /\
  Mqtt.count is_thread_start tr = Mqtt.count is_error_response evs /\
  fetched_bodies tr =
    map (fun d => urlencode (<["data" := hex_encode d]> (post_data s)))
        (posted_payloads evs) /\
  (forall h, <["data" := h]> (post_data s') = <["data" := h]> (post_data s)).
Proof.
  induction evs as [|e evs IH]; intros s s' tr Hs; simpl.
  - intros [= <- <-]. simpl. repeat split; lia.
  - destruct (step urlencode s e) as [[s1 o1]|x] eqn:Hstep; [|discriminate].
    destruct (run_out urlencode s1 evs) as [[s2 o2]|x] eqn:Hrun; [|discriminate].
    intros [= <- <-].
    pose proof (IridiumProofs.step_keys_allocated urlencode _ _ _ _ Hstep Hs) as Hs1.
    pose proof (step_size _ _ _ _ Hs Hstep) as Hsize.
    destruct (step_facts _ _ _ _ Hstep) as (F1 & F2 & F3 & F4 & F5).
    destruct (IH s1 s2 o2 Hs1 Hrun) as (I1 & I2 & I3 & I4 & I5).
    unfold fetched_ids, fetched_bodies in *.
    rewrite !flat_map_app, MqttProofs.count_app, F2, F3, F4, I2, I3, I4, F1.
    split; [|split; [|split; [|split]]].
    + destruct (is_response e), (is_post e); lia.
    + destruct (is_post e); simpl; [|now rewrite Nat.add_0_r].
      now replace (next_request s + 1)%nat with (S (next_request s)) by lia.
    + reflexivity.
    + rewrite map_app. f_equal; [destruct e; reflexivity|].
      apply map_ext. intros d. now rewrite F5.
    + intros h. now rewrite I5, F5.
Qed.

(** X14. Every request handed to the HTTP client carries the credentials the
    interface was constructed with, plus the hex encoding of the payload
    of that delivery in the [data] field; the deliveries made before
    leave no other trace in the form, which the interface shares with
    its creator. *)
Theorem outbound_body_is_credentials_and_payload
    (u : string) (p : Z) (creds : gmap string string) (evs : list event)
    (s' : IridiumInterface) (tr : list action) :
  run_out urlencode (init u p creds) evs = Ok (s', tr) ->
  fetched_bodies tr =
    map (fun d => urlencode (form_for creds d)) (posted_payloads evs) /\
  (forall k, k <> "data" -> post_data s' !! k = creds !! k).
Proof.
  intros Hrun.
  destruct (run_out_facts evs _ _ _ (IridiumProofs.init_keys_allocated u p creds) Hrun)
    as (_ & _ & _ & Hb & Hform).
  split; [exact Hb|].
  intros k Hk. specialize (Hform EmptyString). simpl in Hform.
  rewrite <- (lookup_insert_ne (post_data s') "data" k EmptyString) by congruence.
  rewrite Hform. apply lookup_insert_ne. congruence.
Qed.

(** X15. The pending deliveries are the posts (first deliveries and retries)
    whose response has not come yet: their number is the number of posts
    less the number of responses handled. *)
Theorem pending_count_is_posts_less_responses
    (u : string) (p : Z) (creds : gmap string string) (evs : list event)
    (s' : IridiumInterface) (tr : list action) :
  run_out urlencode (init u p creds) evs = Ok (s', tr) ->
  (size (waiting_for_confirm s') + Mqtt.count is_response evs =
   Mqtt.count is_post evs)%nat.
Proof.
  intros Hrun.
  destruct (run_out_facts evs _ _ _ (IridiumProofs.init_keys_allocated u p creds) Hrun)
    as (Hsize & _).
  simpl in Hsize. rewrite map_size_empty in Hsize. lia.
Qed.

(** X17. A retry thread is started for every error response handled and for
    nothing else: a response without error starts none. *)
Theorem one_retry_thread_per_error_response
    (u : string) (p : Z) (creds : gmap string string) (evs : list event)
    (s' : IridiumInterface) (tr : list action) :
  run_out urlencode (init u p creds) evs = Ok (s', tr) ->
  Mqtt.count is_thread_start tr = Mqtt.count is_error_response evs.
Proof.
  intros Hrun.
  destruct (run_out_facts evs _ _ _ (IridiumProofs.init_keys_allocated u p creds) Hrun)
    as (_ & _ & Hthr & _).
  exact Hthr.
Qed.

End Outbound.

Lemma outbound_body_is_credentials_and_payload_witness :
  fetched_bodies (snd demo_final) =
    map (fun d => urlencode_example (form_for (<["imei" := "300234"]> ∅) d))
        (posted_payloads demo_events) /\
  (forall k, k <> "data" ->
     post_data (fst demo_final) !! k = (<["imei" := "300234"]> ∅ : gmap string string) !! k).
Proof.
  apply (outbound_body_is_credentials_and_payload urlencode_example
           "https://provider/MT" 8080 (<["imei" := "300234"]> ∅) demo_events
           (fst demo_final) (snd demo_final)).
  vm_compute. reflexivity.
Defined.

Lemma pending_count_is_posts_less_responses_witness :
  (size (waiting_for_confirm (fst demo_final)) + Mqtt.count is_response demo_events =
   Mqtt.count is_post demo_events)%nat.
Proof.
  apply (pending_count_is_posts_less_responses urlencode_example
           "https://provider/MT" 8080 (<["imei" := "300234"]> ∅) demo_events
           (fst demo_final) (snd demo_final)).
  vm_compute. reflexivity.
Defined.

Lemma one_retry_thread_per_error_response_witness :
  Mqtt.count is_thread_start (snd demo_final) =
  Mqtt.count is_error_response demo_events.
Proof.
  apply (one_retry_thread_per_error_response urlencode_example
           "https://provider/MT" 8080 (<["imei" := "300234"]> ∅) demo_events
           (fst demo_final) (snd demo_final)).
  vm_compute. reflexivity.
Defined.

Example demo_pending :
  map_to_list (waiting_for_confirm (fst demo_final)) = [(2%nat, (1%Z, "cmd1"))] /\
  fetched_ids (snd demo_final) = [0; 1; 2]%nat.
Proof. vm_compute. split; reflexivity. Qed.

(** *** The hex codec at the inbound endpoint *)

Lemma hex_decode_length (m : bytes) : forall v,
  hex_decode v = Some m -> String.length v = (2 * String.length m)%nat.
Proof.
  induction m as [|c m IH]; intros v; destruct v as [|a [|b r]];
    cbn [hex_decode]; try discriminate; try reflexivity.
  - destruct (hex_digit_val a), (hex_digit_val b), (hex_decode r); discriminate.
  - destruct (hex_digit_val a), (hex_digit_val b), (hex_decode r) as [m'|] eqn:E;
      try discriminate.
    intros [= _ ->]. cbn [String.length]. rewrite (IH r E). lia.
Qed.

Lemma hex_decode_all_hex (m : bytes) : forall v,
  hex_decode v = Some m -> all_hex v = true.
Proof.
  induction m as [|c m IH]; intros v; destruct v as [|a [|b r]];
    cbn [hex_decode all_hex]; try discriminate; try reflexivity.
  - destruct (hex_digit_val a), (hex_digit_val b), (hex_decode r); discriminate.
  - destruct (hex_digit_val a), (hex_digit_val b), (hex_decode r) as [m'|] eqn:E;
      try discriminate.
    intros [= _ ->]. now apply IH.
Qed.

Section Inbound.

Context {St Out : Type}.
Variable cb : bytes -> St -> St * list Out.

(** X18. A POST without a [data] field, or with an empty list of values for
    it, is answered with status 400; the callback is not invoked and the
    state it acts on is untouched. *)
Theorem missing_data_field_rejected
    (arguments : gmap string (list string)) (st : St) :
  arguments !! "data" = None \/ arguments !! "data" = Some [] ->
  fst (post cb arguments st) = st /\
  status_sent (snd (post cb arguments st)) = Some 400%Z /\
  callback_calls (snd (post cb arguments st)) = [].
Proof.
  intros H. rewrite IridiumProofs.post_rejects; [repeat split|].
  intros msg. unfold decode_data. destruct H as [-> | ->]; discriminate.
Qed.

(** X19. A [data] field of odd length, or with a character that is no
    hexadecimal digit, is rejected in the same way. *)
Theorem malformed_hex_rejected
    (arguments : gmap string (list string)) (v : string) (rest : list string)
    (st : St) :
  arguments !! "data" = Some (v :: rest) ->
  Nat.Odd (String.length v) \/ all_hex v = false ->
  fst (post cb arguments st) = st /\
  status_sent (snd (post cb arguments st)) = Some 400%Z /\
  callback_calls (snd (post cb arguments st)) = [].
Proof.
  intros Hdata Hbad. rewrite IridiumProofs.post_rejects; [repeat split|].
  intros msg. unfold decode_data. rewrite Hdata.
  destruct (hex_decode v) as [m|] eqn:E; [|discriminate].
  exfalso. destruct Hbad as [[k Hk]|Hh].
  - apply hex_decode_length in E. lia.
  - apply hex_decode_all_hex in E. congruence.
Qed.

End Inbound.

Lemma missing_data_field_rejected_witness :
  fst (post (Relay.ii_on_message_callback 5) (<["imei" := ["300234"]]> ∅)
         Relay.example_relay) = Relay.example_relay /\
  status_sent (snd (post (Relay.ii_on_message_callback 5)
                      (<["imei" := ["300234"]]> ∅) Relay.example_relay)) = Some 400%Z /\
  callback_calls (snd (post (Relay.ii_on_message_callback 5)
                         (<["imei" := ["300234"]]> ∅) Relay.example_relay)) = [].
Proof.
  apply (missing_data_field_rejected (Relay.ii_on_message_callback 5)
           (<["imei" := ["300234"]]> ∅) Relay.example_relay).
  left. reflexivity.
Defined.

Lemma malformed_hex_rejected_witness :
  fst (post (Relay.ii_on_message_callback 5) (<["data" := ["686"; "6869"]]> ∅)
         Relay.example_relay) = Relay.example_relay /\
  status_sent (snd (post (Relay.ii_on_message_callback 5)
                      (<["data" := ["686"; "6869"]]> ∅) Relay.example_relay)) = Some 400%Z /\
  callback_calls (snd (post (Relay.ii_on_message_callback 5)
                         (<["data" := ["686"; "6869"]]> ∅) Relay.example_relay)) = [].
Proof.
  apply (malformed_hex_rejected (Relay.ii_on_message_callback 5)
           (<["data" := ["686"; "6869"]]> ∅) "686" ["6869"] Relay.example_relay).
  - apply lookup_insert_eq.
  - left. exists 1%nat. reflexivity.
Defined.

(** X20. What [post_message] writes into the [data] field of the form is
    what the inbound endpoint decodes back to the payload: the two
    directions use the same encoding. *)
Theorem outbound_data_field_decodes_back
    (urlencode : gmap string string -> string) (data : bytes) (idx : Z)
    (s : IridiumInterface) (arguments : gmap string (list string))
    (h : string) (rest : list string) :
  post_data (fst (post_message urlencode data idx s)) !! "data" = Some h ->
  arguments !! "data" = Some (h :: rest) ->
  decode_data arguments = Ok data.
Proof.
  simpl. rewrite lookup_insert_eq. intros [= <-] Hdata.
  unfold decode_data. now rewrite Hdata, hex_decode_encode.
Qed.

Lemma outbound_data_field_decodes_back_witness :
  decode_data (<["data" := ["636d6431"]]> ∅) = Ok "cmd1".
Proof.
  apply (outbound_data_field_decodes_back urlencode_example "cmd1" 1 demo_init
           (<["data" := ["636d6431"]]> ∅) "636d6431" []).
  - apply lookup_insert_eq.
  - apply lookup_insert_eq.
Defined.

End IridiumExtra.


(** ** The relay *)

Module RelayExtra.
Import Relay.

Lemma publishes_app tr1 tr2 : publishes (tr1 ++ tr2) = publishes tr1 ++ publishes tr2.
Proof. apply flat_map_app. Qed.

Lemma relayed_on_app topic tr1 tr2 :
  relayed_on topic (tr1 ++ tr2) = relayed_on topic tr1 ++ relayed_on topic tr2.
Proof. unfold relayed_on. now rewrite publishes_app, flat_map_app. Qed.

Lemma relayed_on_cons2 topic a b tr :
  relayed_on topic (a :: b :: tr) = relayed_on topic [a; b] ++ relayed_on topic tr.
Proof. apply (relayed_on_app topic [a; b] tr). Qed.

Lemma relayed_on_lte_acts topic l : relayed_on topic (map LteAct l) = [].
Proof. induction l as [|a l IH]; [reflexivity|exact IH]. Qed.

Lemma relayed_on_iridium_acts topic l : relayed_on topic (map IridiumAct l) = [].
Proof. induction l as [|a l IH]; [reflexivity|exact IH]. Qed.

(** What one event of the relay publishes with a payload. *)
Lemma step_relayed urlencode r e r1 o1 :
  step urlencode r e = Ok (r1, o1) ->
  relayed_on Mqtt.LTE_from_plane o1 = udp_payloads [e] /\
  relayed_on Mqtt.SatCom_from_plane o1 = mo_payloads [e].
Proof.
  intros H. destruct e; simpl in H.
  - unfold on_udp, li_on_message_callback in H.
    destruct (Lte.on_receive _ _ _ _ _ _) as [l ol|x l ol]; [|discriminate].
    simpl in H. injection H as _ <-.
    rewrite !relayed_on_app, !relayed_on_lte_acts. split; reflexivity.
  - unfold with_li in H. injection H as _ <-.
    rewrite !relayed_on_lte_acts. auto.
  - unfold on_mqtt_lte, lte_on_message_callback in H. simpl in H.
    destruct (Lte.send _ _) as [l ol]. simpl in H. injection H as _ <-.
    rewrite !(relayed_on_cons2 _ _ _ (map LteAct _)), !relayed_on_lte_acts.
    split; reflexivity.
  - unfold on_mqtt_satcom, satcom_on_message_callback in H. simpl in H.
    injection H as _ <-. split; reflexivity.
  - unfold with_mi in H. simpl in H. injection H as _ <-. split; reflexivity.
  - unfold with_mi, Mqtt.on_connect in H.
    destruct (_ =? 0)%Z; [|destruct (_ =? 3)%Z]; simpl in H;
      injection H as _ <-; split; reflexivity.
  - unfold with_mi in H. simpl in H. injection H as _ <-. split; reflexivity.
  - unfold with_mi, Mqtt.on_receive_timeout in H.
    destruct (_ && _); simpl in H; injection H as _ <-; split; reflexivity.
  - unfold mo_post, Iridium.post, ii_on_message_callback in H. simpl.
    destruct (Iridium.decode_data arguments) as [msg|x]; simpl in H;
      injection H as _ <-; split; reflexivity.
  - destruct (Iridium.on_message_sent response is_alive (ii r)) as [[i o]|x];
      [|discriminate].
    unfold with_ii in H. cbn [fst snd] in H. injection H as _ <-.
    rewrite !relayed_on_iridium_acts. auto.
  - unfold with_ii in H. injection H as _ <-. split; reflexivity.
Qed.

(** X21. Over a run of the relay in which no handler raises, the
    payloads published on the LTE topic are the payloads of the UDP
    datagrams, each once and in arrival order; the payloads published on
    the SatCom topic are those of the inbound Iridium messages that
    decode, each once and in arrival order. Nothing else is published
    with a payload. *)
Theorem uplink_publishes_are_the_inbound_messages
    (urlencode : gmap string string -> string) (r r' : Relay)
    (evs : list event) (tr : list action) :
  run urlencode r evs = Ok (r', tr) ->
  relayed_on Mqtt.LTE_from_plane tr = udp_payloads evs /\
  relayed_on Mqtt.SatCom_from_plane tr = mo_payloads evs.
Proof.
  revert r r' tr. induction evs as [|e evs IH]; intros r r' tr; simpl.
  - intros H. injection H as _ <-. split; reflexivity.
  - destruct (step urlencode r e) as [[r1 o1]|x] eqn:Hstep; [|discriminate].
    destruct (run urlencode r1 evs) as [[r2 o2]|x] eqn:Hrun; [|discriminate].
    intros H. injection H as _ <-.
    destruct (step_relayed _ _ _ _ _ Hstep) as [S1 S2].
    destruct (IH _ _ _ Hrun) as [I1 I2].
    rewrite !relayed_on_app, S1, S2, I1, I2.
    unfold udp_payloads, mo_payloads. cbn [flat_map]. rewrite !app_nil_r.
    split; reflexivity.
Qed.

(** The datagram on which the rate line raises is not relayed: the
    exception leaves [on_receive] before the callback. *)
Example raising_datagram_ends_the_run :
  step Iridium.urlencode_example
    {| mi := mi example_relay; li := Lte.after_999; ii := ii example_relay |}
    (Udp "yo" ("9.9.9.9", 7000%Z) 0 0 0) = Raise ZeroDivisionError.
Proof. vm_compute. reflexivity. Qed.

Lemma demo_run_ok :
  run Iridium.urlencode_example example_relay demo_events =
  Ok (fst demo_final, snd demo_final).
Proof. vm_compute. reflexivity. Qed.

Lemma uplink_publishes_are_the_inbound_messages_witness :
  relayed_on Mqtt.LTE_from_plane (snd demo_final) = ["hi"; "yo"] /\
  relayed_on Mqtt.SatCom_from_plane (snd demo_final) = ["hi"].
Proof.
  apply (uplink_publishes_are_the_inbound_messages Iridium.urlencode_example
           example_relay (fst demo_final) demo_events (snd demo_final)).
  exact demo_run_ok.
Defined.

(** X22. Traffic of the LTE side (datagrams, liveness checks, MQTT
    messages for the LTE link) never touches the SatCom side: over a run
    of such events the Iridium adapter, the sequence counter and the
    state of the stale check stay as they are, so LTE traffic does not
    put off the clearing of the SatCom topic. *)
Theorem lte_traffic_leaves_satcom_side_alone
    (urlencode : gmap string string -> string) (r r' : Relay)
    (evs : list event) (tr : list action) :
  Forall (fun e => is_lte_event e = true) evs ->
  run urlencode r evs = Ok (r', tr) ->
  ii r' = ii r /\ satcom_state (mi r') = satcom_state (mi r).
Proof.
  revert r r' tr. induction evs as [|e evs IH]; intros r r' tr Hev; simpl.
  - intros [= <- _]. auto.
  - inversion Hev as [|? ? He Hrest]; subst.
    destruct (step urlencode r e) as [[r1 o1]|x] eqn:Hstep; [|discriminate].
    destruct (run urlencode r1 evs) as [[r2 o2]|x] eqn:Hrun; [|discriminate].
    intros [= <- _].
    assert (H1 : ii r1 = ii r /\ satcom_state (mi r1) = satcom_state (mi r)).
    { destruct e; simpl in He; try discriminate; simpl in Hstep.
      - unfold on_udp, li_on_message_callback in Hstep.
        destruct (Lte.on_receive _ _ _ _ _ _) as [l ol|x l ol]; [|discriminate].
        simpl in Hstep. injection Hstep as <- _. auto.
      - unfold with_li in Hstep. injection Hstep as <- _. auto.
      - unfold on_mqtt_lte, lte_on_message_callback in Hstep. simpl in Hstep.
        destruct (Lte.send _ _) as [l ol]. simpl in Hstep.
        injection Hstep as <- _. auto. }
    destruct H1 as [H1 H2]. destruct (IH _ _ _ Hrest Hrun) as [I1 I2].
    split; congruence.
Qed.

Lemma lte_traffic_leaves_satcom_side_alone_witness :
  ii (fst (Iridium.ok_or (example_relay, [])
             (run Iridium.urlencode_example example_relay
                [Udp "hi" ("1.2.3.4", 5000%Z) 1 1 1;
                 MqttLte "telem/LTE_to_plane" "bye"; LteCheck 40 40 40])))
    = ii example_relay /\
  satcom_state
    (mi (fst (Iridium.ok_or (example_relay, [])
                (run Iridium.urlencode_example example_relay
                   [Udp "hi" ("1.2.3.4", 5000%Z) 1 1 1;
                    MqttLte "telem/LTE_to_plane" "bye"; LteCheck 40 40 40]))))
    = satcom_state (mi example_relay).
Proof.
  apply (lte_traffic_leaves_satcom_side_alone Iridium.urlencode_example example_relay _
           [Udp "hi" ("1.2.3.4", 5000%Z) 1 1 1;
            MqttLte "telem/LTE_to_plane" "bye"; LteCheck 40 40 40]
           (snd (Iridium.ok_or (example_relay, [])
                   (run Iridium.urlencode_example example_relay
                      [Udp "hi" ("1.2.3.4", 5000%Z) 1 1 1;
                       MqttLte "telem/LTE_to_plane" "bye"; LteCheck 40 40 40])))).
  - repeat constructor.
  - vm_compute. reflexivity.
Defined.

(** X23. Traffic of the SatCom side (MQTT messages for the SatCom link, stale
    checks, inbound Iridium messages, responses and retries) never
    touches the LTE adapter and never transmits a datagram. *)
Theorem satcom_traffic_leaves_lte_side_alone
    (urlencode : gmap string string -> string) (r r' : Relay)
    (evs : list event) (tr : list action) :
  Forall (fun e => is_satcom_event e = true) evs ->
  run urlencode r evs = Ok (r', tr) ->
  li r' = li r /\ transmissions tr = [].
Proof.
  revert r r' tr. induction evs as [|e evs IH]; intros r r' tr Hev; simpl.
  - intros [= <- <-]. auto.
  - inversion Hev as [|? ? He Hrest]; subst.
    destruct (step urlencode r e) as [[r1 o1]|x] eqn:Hstep; [|discriminate].
    destruct (run urlencode r1 evs) as [[r2 o2]|x] eqn:Hrun; [|discriminate].
    intros [= <- <-].
    assert (H1 : li r1 = li r /\ transmissions o1 = []).
    { assert (Hm : forall l, transmissions (map MqttAct l) = [])
        by (induction l; [reflexivity|assumption]).
      assert (Hi : forall l, transmissions (map IridiumAct l) = [])
        by (induction l; [reflexivity|assumption]).
      assert (Hh : forall l, transmissions (map HandlerAct l) = [])
        by (induction l; [reflexivity|assumption]).
      destruct e; simpl in He; try discriminate; simpl in Hstep.
      - unfold on_mqtt_satcom, satcom_on_message_callback in Hstep. simpl in Hstep.
        injection Hstep as <- <-. split; reflexivity.
      - unfold with_mi in Hstep. injection Hstep as <- <-.
        split; [reflexivity|].
        unfold Mqtt.on_receive_timeout. destruct (_ && _); reflexivity.
      - unfold mo_post, Iridium.post, ii_on_message_callback in Hstep.
        destruct (Iridium.decode_data arguments); simpl in Hstep;
          injection Hstep as <- <-; split; reflexivity.
      - destruct (Iridium.on_message_sent response is_alive (ii r)) as [[i o]|x];
          [|discriminate].
        unfold with_ii in Hstep. simpl in Hstep.
        injection Hstep as <- <-. split; [reflexivity|apply Hi].
      - unfold with_ii in Hstep. injection Hstep as <- <-.
        split; reflexivity. }
    destruct H1 as [H1 H2]. destruct (IH _ _ _ Hrest Hrun) as [I1 I2].
    split; [congruence|]. unfold transmissions in *.
    now rewrite flat_map_app, H2, I2.
Qed.

Lemma satcom_traffic_leaves_lte_side_alone_witness :
  li (fst (Iridium.ok_or (example_relay, [])
             (run Iridium.urlencode_example example_relay
                [MqttSatcom "telem/SatCom_to_plane" "cmd1";
                 IridiumMO (<["data" := ["6869"]]> ∅) 5; SatcomCheck 700 700])))
    = li example_relay /\
  transmissions
    (snd (Iridium.ok_or (example_relay, [])
            (run Iridium.urlencode_example example_relay
               [MqttSatcom "telem/SatCom_to_plane" "cmd1";
                IridiumMO (<["data" := ["6869"]]> ∅) 5; SatcomCheck 700 700]))) = [].
Proof.
  apply (satcom_traffic_leaves_lte_side_alone Iridium.urlencode_example example_relay _
           [MqttSatcom "telem/SatCom_to_plane" "cmd1";
            IridiumMO (<["data" := ["6869"]]> ∅) 5; SatcomCheck 700 700]).
  - repeat constructor.
  - vm_compute. reflexivity.
Defined.

End RelayExtra.
